(** * T2F-Pharm: vacancy and buriedness volumes

    A shallow embedding of [opencadd/pipelines/t2fpharm.py], the class
    [T2FPharm] with its two analysis methods
    [calculate_vacancy_from_energy] and
    [calculate_buriedness_from_psp_count].

    - numpy arrays are a shape together with the flat data in C order;
    - energies are IEEE 754 binary64 values ([spec_float], precision 53);
    - exceptions are values of an error monad whose state is the object
      store (every numpy array created by a method is a fresh cell) and
      the attribute record of the instance. *)

From Stdlib Require Import String Ascii Bool Arith ZArith Lia List.
From Stdlib Require Import SpecFloat.
Import ListNotations.

Local Open Scope string_scope.
Local Open Scope nat_scope.
Local Open Scope list_scope.

(* ================================================================= *)
(** ** binary64 *)

Module Float64.

Definition float64 : Type := spec_float.

Definition prec : Z := 53.
Definition emax : Z := 1024.

(** Python's [x < y] and [x <= y] on floats: false whenever a NaN is
    involved. *)
Definition lt (x y : float64) : bool := SFltb x y.
Definition le (x y : float64) : bool := SFleb x y.

Definition add (x y : float64) : float64 := SFadd prec emax x y.
Definition div (x y : float64) : float64 := SFdiv prec emax x y.

Definition of_Z (n : Z) : float64 := binary_normalize prec emax n 0 false.

Definition zero : float64 := S754_zero false.
Definition one : float64 := of_Z 1.
Definition half : float64 := div one (of_Z 2).
Definition nan : float64 := S754_nan.

(** [math.floor] of a finite value; [None] for NaN and the infinities. *)
Definition floor (x : float64) : option Z :=
  match x with
  | S754_zero _ => Some 0%Z
  | S754_finite s m e =>
      Some (Z.shiftl (if s then Z.neg m else Z.pos m) e)
  | S754_infinity _ | S754_nan => None
  end.

(** [numpy.maximum] and [numpy.minimum]: a NaN operand is propagated. *)
Definition maximum (x y : float64) : float64 :=
  match SFcompare x y with
  | None => S754_nan
  | Some Lt => y
  | Some _ => x
  end.

Definition minimum (x y : float64) : float64 :=
  match SFcompare x y with
  | None => S754_nan
  | Some Gt => y
  | Some _ => x
  end.

End Float64.

Abbreviation float64 := Float64.float64.

(* ================================================================= *)
(** ** Python exceptions *)

Inductive exception : Type :=
| ValueError (msg : string)
| KeyError (key : option string)
| AttributeError (attr : string)
| IndexError (msg : string)
| SystemError (msg : string)
| InvalidParameterError (msg : string).
(* [InvalidParameterError] is the error kind the specification gives to the
   PSP event counter, whose source is not available. *)

(* ================================================================= *)
(** ** numpy arrays *)

Module Numpy.

Record ndarray (A : Type) : Type := NDArray {
  shape : list nat;
  data : list A
}.
Arguments NDArray {A} shape data.
Arguments shape {A} _.
Arguments data {A} _.

(** Number of elements of an array of the given shape. *)
Definition size (s : list nat) : nat := fold_right Nat.mul 1 s.

Definition well_shaped {A} (a : ndarray A) : Prop :=
  length (data a) = size (shape a).

(** [a.shape[-1]] and [a.shape[:-1]]. *)
Definition last_dim (s : list nat) : nat := last s 0.
Definition lead_dims (s : list nat) : list nat := removelast s.

(** The flat data cut into its [n] rows of length [c] along the last
    axis. *)
Fixpoint lanes {A} (c n : nat) (l : list A) : list (list A) :=
  match n with
  | 0 => []
  | S n' => firstn c l :: lanes c n' (skipn c l)
  end.

Definition rows {A} (a : ndarray A) : list (list A) :=
  lanes (last_dim (shape a)) (size (lead_dims (shape a))) (data a).

(** Boolean-mask indexing of a one-dimensional sequence, [l[mask]]. *)
Fixpoint compress {A} (mask : list bool) (l : list A) : list A :=
  match mask, l with
  | b :: mask', x :: l' =>
      if b then x :: compress mask' l' else compress mask' l'
  | _, _ => []
  end.

Definition count_nonzero (mask : list bool) : nat :=
  length (filter (fun b => b) mask).

(** [numpy.isin(element, test_elements, invert=invert)] on strings. *)
Definition isin (element test_elements : list string) (invert : bool)
  : list bool :=
  map (fun x => xorb invert (existsb (String.eqb x) test_elements)) element.

(** [numpy.any]. *)
Definition any (mask : list bool) : bool := existsb (fun b => b) mask.

(** [a[..., mask]]: boolean indexing of the last axis. *)
Definition getitem_ellipsis_mask {A} (a : ndarray A) (mask : list bool)
  : exception + ndarray A :=
  if length mask =? last_dim (shape a) then
    inr (NDArray (lead_dims (shape a) ++ [count_nonzero mask])
                 (concat (map (compress mask) (rows a))))
  else
    inl (IndexError "boolean index did not match indexed array").

(** A reduction such as [numpy.max] applied with [axis=-1]: [lane] is
    what it computes on one row; reductions without an identity raise
    on a zero-size axis. *)
Record reduction_op : Type := ReductionOp {
  lane : list float64 -> float64;
  has_identity : bool
}.

Definition reduce_last_axis (op : reduction_op) (a : ndarray float64)
  : exception + ndarray float64 :=
  if (last_dim (shape a) =? 0) && negb (has_identity op) then
    inl (ValueError "zero-size array to reduction operation which has no identity")
  else
    inr (NDArray (lead_dims (shape a)) (map (lane op) (rows a))).

(** [a < c] and [a >= c], elementwise against a scalar. *)
Definition less (a : ndarray float64) (c : float64) : ndarray bool :=
  NDArray (shape a) (map (fun x => Float64.lt x c) (data a)).

Definition greater_equal (a : ndarray Z) (c : Z) : ndarray bool :=
  NDArray (shape a) (map (fun x => Z.geb x c) (data a)).

(** What numpy prints for a short one-dimensional array of plain names,
    such as ['X' 'Y']. It is a sample only: numpy wraps long lines, elides
    the middle of arrays of more than 1000 elements and quotes each element
    as Python's [repr] does, so the model takes the rendering as a
    parameter ([np_str] below) and uses this one in the small instance. *)
Definition quoted (s : string) : string := ("'" ++ s ++ "'")%string.
Definition str_short (l : list string) : string :=
  ("[" ++ String.concat " " (map quoted l) ++ "]")%string.

(** Flat offset of the lattice point [(i, j, k)] in a volume whose second
    and third axes have lengths [ny] and [nz]. *)
Definition offset3 (ny nz i j k : nat) : nat := (i * ny + j) * nz + k.

(** What the pipeline takes from numpy as given: the four reductions,
    each by its value on one row, and [np_str], the text [str] gives for a
    one-dimensional array of strings (what an f-string puts in a
    message). *)
Record reductions : Type := Reductions {
  np_max : list float64 -> float64;
  np_min : list float64 -> float64;
  np_mean : list float64 -> float64;
  np_sum : list float64 -> float64;
  np_str : list string -> string
}.

(** A reference evaluation: left to right over the row, and the rendering
    of short arrays. *)
Definition sum_seq (l : list float64) : float64 :=
  fold_left Float64.add l Float64.zero.

Definition fold1 (f : float64 -> float64 -> float64) (l : list float64)
  : float64 :=
  match l with
  | [] => Float64.nan
  | x :: l' => fold_left f l' x
  end.

Definition reference : reductions :=
  {| np_max := fold1 Float64.maximum;
     np_min := fold1 Float64.minimum;
     np_mean := fun l => Float64.div (sum_seq l) (Float64.of_Z (Z.of_nat (length l)));
     np_sum := sum_seq;
     np_str := str_short |}.

End Numpy.

Import Numpy.

(* ================================================================= *)
(** ** The object store and the error monad *)

Module Py.

(** Identity of a numpy array object. *)
Definition loc : Type := nat.

(** The boolean arrays alive in the interpreter; a new array takes the
    next free identity. *)
Definition store : Type := list (ndarray bool).

Definition lookup (h : store) (l : loc) : option (ndarray bool) :=
  nth_error h l.

Fixpoint update {A} (l : list A) (i : nat) (x : A) : list A :=
  match l, i with
  | [], _ => []
  | _ :: l', 0 => x :: l'
  | y :: l', S i' => y :: update l' i' x
  end.

Section Monad.
Context {S : Type}.

Definition M (A : Type) : Type := S -> (exception + A) * S.

Definition ret {A} (x : A) : M A := fun s => (inr x, s).

Definition bind {A B} (c : M A) (k : A -> M B) : M B :=
  fun s =>
    match c s with
    | (inl e, s') => (inl e, s')
    | (inr x, s') => k x s'
    end.

Definition raise {A} (e : exception) : M A := fun s => (inl e, s).

Definition get : M S := fun s => (inr s, s).

Definition lift {A} (r : exception + A) : M A :=
  match r with
  | inl e => raise e
  | inr x => ret x
  end.
End Monad.

Arguments M : clear implicits.

End Py.

Import Py.

Declare Scope py_scope.
Delimit Scope py_scope with py.
Notation "x <- c ;; k" := (bind c (fun x => k))
  (at level 61, c at next level, right associativity) : py_scope.
Notation "c ;; k" := (bind c (fun _ => k))
  (at level 61, right associativity) : py_scope.

(* ================================================================= *)
(** ** PSP event counting *)

(** The pipeline imports [count_psp_events_from_vacancy_tensor] from
    [opencadd.bindingsite.utils] (line 17); the source of that module is not
    available, so this module follows sections 4.3 and 4.4 of the
    specification. *)

Module BindingSite.

(** Modelled from the spec: a lattice point or a step vector, by integer
    coordinates. *)
Definition point : Type := (Z * Z * Z)%type.

(** Modelled from the spec: one grid step from [p] along [d]. *)
Definition step (p d : point) : point :=
  let '(x, y, z) := p in
  let '(dx, dy, dz) := d in
  (x + dx, y + dy, z + dz)%Z.

(** Modelled from the spec: the negative sense of a direction. *)
Definition opposite (d : point) : point :=
  let '(dx, dy, dz) := d in (- dx, - dy, - dz)%Z.

(** Modelled from the spec: the direction sets of section 4.3, whose
    enumeration in [opencadd.bindingsite.utils] is not available; any other
    count is an [InvalidParameterError]. *)
Definition directions (count : Z) : exception + list point :=
  let axes := [(1, 0, 0); (0, 1, 0); (0, 0, 1)]%Z in
  let diagonals3 := [(1, 1, 1); (1, 1, -1); (1, -1, 1); (1, -1, -1)]%Z in
  let diagonals2 :=
    [(1, 1, 0); (1, -1, 0); (1, 0, 1); (1, 0, -1); (0, 1, 1); (0, 1, -1)]%Z in
  if (count =? 3)%Z then inr axes
  else if (count =? 7)%Z then inr (axes ++ diagonals3)
  else if (count =? 13)%Z then inr (axes ++ diagonals3 ++ diagonals2)
  else inl (InvalidParameterError "direction count").

Section Volume.
Variables nx ny nz : nat.
Variable vacancy : list bool.

(** Modelled from the spec: the vacancy flag of a lattice point, [None]
    outside the grid bounds. *)
Definition vacant_at (p : point) : option bool :=
  let '(x, y, z) := p in
  if ((0 <=? x) && (x <? Z.of_nat nx) && (0 <=? y) && (y <? Z.of_nat ny)
      && (0 <=? z) && (z <? Z.of_nat nz))%Z
  then nth_error vacancy
         (offset3 ny nz (Z.to_nat x) (Z.to_nat y) (Z.to_nat z))
  else None.

(** Modelled from the spec: step 2a of section 4.4. The march of at
    most [steps] grid steps from [p] along [d] finds a hit at the first
    visited point that is inside the grid and occupied; leaving the
    grid ends it without a hit, vacant cells are stepped over. *)
Fixpoint hit (steps : nat) (p d : point) : bool :=
  match steps with
  | 0 => false
  | S n =>
      let q := step p d in
      match vacant_at q with
      | None => false
      | Some true => hit n q d
      | Some false => true
      end
  end.

(** Modelled from the spec: step 2c, a PSP event needs a hit in both
    senses of the direction. *)
Definition psp_event (steps : nat) (p d : point) : bool :=
  hit steps p d && hit steps p (opposite d).

(** Modelled from the spec: the lattice point at flat offset [i] of the
    volume, in C order. *)
Definition unravel (i : nat) : point :=
  (Z.of_nat (i / (ny * nz)), Z.of_nat ((i / nz) mod ny), Z.of_nat (i mod nz)).

(** Modelled from the spec: step 3, the number of directions with a PSP
    event; occupied points are skipped and keep the count zero. *)
Fixpoint counts_from (steps : nat) (dirs : list point) (i : nat)
         (flags : list bool) : list Z :=
  match flags with
  | [] => []
  | b :: flags' =>
      (if b
       then Z.of_nat (length (filter (psp_event steps (unravel i)) dirs))
       else 0%Z)
        :: counts_from steps dirs (S i) flags'
  end.
End Volume.

(** Modelled from the spec: step 1, [L = floor(max_distance / spacing)];
    a limit below one, or no finite quotient, leaves no step to take. *)
Definition ray_limit (psp_len_max spacing : float64) : nat :=
  match Float64.floor (Float64.div psp_len_max spacing) with
  | Some L => Z.to_nat L
  | None => 0
  end.

(** Modelled from the spec: [count_psp_events_from_vacancy_tensor] of
    [opencadd.bindingsite.utils], the function behind the buriedness
    analysis whose source is not available; it follows section 4.4 on a
    three-dimensional vacancy volume and returns the event count of every
    lattice point. *)
Definition count_psp_events_from_vacancy_tensor
           (grid_vacancy : ndarray bool) (spacing_grid_points : float64)
           (num_directions : Z) (psp_len_max : float64)
  : exception + ndarray Z :=
  match directions num_directions with
  | inl e => inl e
  | inr dirs =>
      match shape grid_vacancy with
      | [nx; ny; nz] =>
          inr (NDArray [nx; ny; nz]
                 (counts_from nx ny nz (data grid_vacancy)
                    (ray_limit psp_len_max spacing_grid_points) dirs 0
                    (data grid_vacancy)))
      | _ => inl (InvalidParameterError "vacancy volume is not three-dimensional")
      end
  end.

End BindingSite.

(* ================================================================= *)
(** ** The class [T2FPharm] *)

Module T2FPharm.

(** The instance attributes the two analysis methods read and write.
    [__init__] assigns the first three; [_grid_vacancy] and
    [_grid_buriedness] exist only once a method has assigned them. *)
Record attributes : Type := Attributes {
  _spacing_grid_points : float64;
  _type_energy_grids : list string;
  _grid : ndarray float64;
  _grid_vacancy : option loc;
  _grid_buriedness : option loc
}.

(** The interpreter state seen by a method: the arrays alive and the
    attributes of [self]. *)
Record world : Type := World {
  heap : store;
  self : attributes
}.

(** The end of [__init__] (lines 100-118): the probe types, the spacing
    and the grid AutoGrid4 returned are stored. *)
Definition __init__ (h : store) (type_probes : list string)
           (spacing_grid_points : float64) (autogrid : ndarray float64)
  : world :=
  World h
    {| _spacing_grid_points := spacing_grid_points;
       _type_energy_grids := type_probes ++ ["e"; "d"];
       _grid := autogrid;
       _grid_vacancy := None;
       _grid_buriedness := None |}.

Local Open Scope py_scope.

(** Creating a numpy array: a new cell at the next free identity. *)
Definition new_array (a : ndarray bool) : M world loc :=
  fun w => (inr (length (heap w)), World (heap w ++ [a]) (self w)).

(** The array behind a reference. A reference to an array that is not
    alive does not arise in the interpreter; the attributes of a
    [well_formed] world never reach that branch. *)
Definition read_array (l : loc) : M world (ndarray bool) :=
  fun w =>
    match lookup (heap w) l with
    | Some a => (inr a, w)
    | None => (inl (SystemError "no such object"), w)
    end.

(** [a.copy()]. *)
Definition copy (l : loc) : M world loc :=
  a <- read_array l ;; new_array a.

(** [a.flat[i] = b], what a caller may do with an array it holds. *)
Definition setitem (l : loc) (i : nat) (b : bool) : M world unit :=
  a <- read_array l ;;
  fun w =>
    (inr tt, World (update (heap w) l (NDArray (shape a) (update (data a) i b)))
                   (self w)).

(** [self.name]: an attribute that was never assigned raises
    [AttributeError]. *)
Definition getattr {A} (name : string) (field : attributes -> option A)
  : M world A :=
  fun w =>
    match field (self w) with
    | Some x => (inr x, w)
    | None => (inl (AttributeError name), w)
    end.

(** [self._grid_vacancy = l] and [self._grid_buriedness = l]: the
    attribute is bound to the new array, whatever it referred to before
    is left as it is. *)
Definition with_grid_vacancy (s : attributes) (l : loc) : attributes :=
  {| _spacing_grid_points := _spacing_grid_points s;
     _type_energy_grids := _type_energy_grids s;
     _grid := _grid s;
     _grid_vacancy := Some l;
     _grid_buriedness := _grid_buriedness s |}.

Definition with_grid_buriedness (s : attributes) (l : loc) : attributes :=
  {| _spacing_grid_points := _spacing_grid_points s;
     _type_energy_grids := _type_energy_grids s;
     _grid := _grid s;
     _grid_vacancy := _grid_vacancy s;
     _grid_buriedness := Some l |}.

Definition set_grid_vacancy (l : loc) : M world unit :=
  fun w => (inr tt, World (heap w) (with_grid_vacancy (self w) l)).

Definition set_grid_buriedness (l : loc) : M world unit :=
  fun w => (inr tt, World (heap w) (with_grid_buriedness (self w) l)).

(** The argument [energy_refs]: a [Sequence] (a list or tuple of names; a
    bare [str] is a [Sequence] too and acts as the list of that one
    name), or any other array-like of names, such as a numpy array. *)
Inductive energy_refs_arg : Type :=
| Sequence (names : list string)
| NotSequence (names : list string).

Section Methods.
(** [numpy.max], [numpy.min], [numpy.mean] and [numpy.sum]. *)
Variable np : reductions.

(** The function imported on line 17, a pure function of its arguments. *)
Variable count_psp_events_from_vacancy_tensor :
  ndarray bool -> float64 -> Z -> float64 -> exception + ndarray Z.

(** Line 178. *)
Definition reducing_op : list (string * reduction_op) :=
  [("max", ReductionOp (np_max np) false);
   ("min", ReductionOp (np_min np) false);
   ("avg", ReductionOp (np_mean np) true);
   ("sum", ReductionOp (np_sum np) true)].

(** [reducing_op[mode]]; [None] is not a key. *)
Definition dict_get {V} (d : list (string * V)) (key : option string)
  : option V :=
  match key with
  | None => None
  | Some k =>
      match find (fun kv => String.eqb (fst kv) k) d with
      | Some kv => Some (snd kv)
      | None => None
      end
  end.

(** [mode in reducing_op]. *)
Definition dict_contains {V} (d : list (string * V)) (key : option string)
  : bool :=
  match dict_get d key with Some _ => true | None => false end.

(** Lines 193-200: the sub-grid of the referenced channels and the
    energies that are compared with the cutoff. *)
Definition energy_vals (s : attributes) (energy_refs : list string)
           (mode : option string) : exception + ndarray float64 :=
  match getitem_ellipsis_mask (_grid s)
          (isin (_type_energy_grids s) energy_refs false) with
  | inl e => inl e
  | inr subgrid_ref =>
      if last_dim (shape subgrid_ref) =? 1 then inr subgrid_ref
      else
        match dict_get reducing_op mode with
        | Some op => reduce_last_axis op subgrid_ref
        | None => inl (KeyError mode)
        end
  end.

(** Lines 177-203. *)
Definition calculate_vacancy_from_energy
           (energy_refs : energy_refs_arg) (energy_cutoff : float64)
           (mode : option string) (return_copy : bool)
  : M world (option loc) :=
  energy_refs <-
    match energy_refs with
    | Sequence names =>
        if negb (dict_contains reducing_op mode)
        then raise (ValueError "Input argument `mode` not recognized.")
        else ret names
    | NotSequence names => ret names
    end ;;
  w <- get ;;
  let not_calculated :=
    isin energy_refs (_type_energy_grids (self w)) true in
  if any not_calculated then
    raise (ValueError
             ("The following energy grids were not calculated: "
                ++ np_str np (compress not_calculated energy_refs))%string)
  else
    energy_vals <- lift (energy_vals (self w) energy_refs mode) ;;
    vacancy <- new_array (less energy_vals energy_cutoff) ;;
    set_grid_vacancy vacancy ;;
    if return_copy
    then
      v <- getattr "_grid_vacancy" _grid_vacancy ;;
      c <- copy v ;;
      ret (Some c)
    else ret None.

(** Lines 251-258. *)
Definition calculate_buriedness_from_psp_count
           (num_directions : Z) (psp_len_max : float64)
           (psp_count_min : Z) (return_copy : bool)
  : M world (option loc) :=
  v <- getattr "_grid_vacancy" _grid_vacancy ;;
  grid_vacancy <- read_array v ;;
  w <- get ;;
  grid_psp_counts <-
    lift (count_psp_events_from_vacancy_tensor grid_vacancy
            (_spacing_grid_points (self w)) num_directions psp_len_max) ;;
  buriedness <- new_array (greater_equal grid_psp_counts psp_count_min) ;;
  set_grid_buriedness buriedness ;;
  if return_copy
  then
    b <- getattr "_grid_buriedness" _grid_buriedness ;;
    c <- copy b ;;
    ret (Some c)
  else ret None.
End Methods.

End T2FPharm.

Import T2FPharm.

(* ================================================================= *)
(** ** The contract of the two stages, in the words of the specification *)

Module Contract.

(** The closed set of reduction modes and the key under which
    [reducing_op] holds each of them. *)
Inductive reduction : Type := Max | Min | Mean | Sum.

Definition mode_of (r : reduction) : string :=
  match r with
  | Max => "max"
  | Min => "min"
  | Mean => "avg"
  | Sum => "sum"
  end.

Definition reduce (np : reductions) (r : reduction)
  : list float64 -> float64 :=
  match r with
  | Max => np_max np
  | Min => np_min np
  | Mean => np_mean np
  | Sum => np_sum np
  end.

Definition names_of (arg : energy_refs_arg) : list string :=
  match arg with
  | Sequence names => names
  | NotSequence names => names
  end.

(** A call passes the check of [mode] when its references are not a
    [Sequence] or when [mode] is a key of [reducing_op]. *)
Definition mode_checked (np : reductions) (arg : energy_refs_arg)
           (mode : option string) : bool :=
  match arg with
  | Sequence _ => dict_contains (reducing_op np) mode
  | NotSequence _ => true
  end.

Section EnergyGrid.
Variable names : list string.
Variable grid : ndarray float64.
Variables ny nz : nat.

(** [grid[i, j, k, :]], the energies of all channels at a point. *)
Definition energies_at (i j k : nat) : list float64 :=
  firstn (length names)
         (skipn (offset3 ny nz i j k * length names) (data grid)).

(** The energy of the channel called [name] among [values], one value
    per channel name. *)
Fixpoint channel (name : string) (channels : list string)
         (values : list float64) : option float64 :=
  match channels, values with
  | c :: channels', v :: values' =>
      if String.eqb c name then Some v else channel name channels' values'
  | _, _ => None
  end.

Fixpoint traverse {A B} (f : A -> option B) (l : list A)
  : option (list B) :=
  match l with
  | [] => Some []
  | x :: l' =>
      match f x, traverse f l' with
      | Some y, Some ys => Some (y :: ys)
      | _, _ => None
      end
  end.

(** The energies at a point of exactly the requested channels, in the
    order of the channel axis. *)
Definition selected_energies (refs : list string) (i j k : nat)
  : option (list float64) :=
  traverse (fun name => channel name names (energies_at i j k))
           (filter (fun name => existsb (String.eqb name) refs) names).

(** The scalar compared with the cutoff: the channel itself for one
    name, the reduction across the requested channels for several. *)
Definition reduced_scalar (np : reductions) (refs : list string)
           (r : reduction) (i j k : nat) : option float64 :=
  match refs with
  | [name] => channel name names (energies_at i j k)
  | _ => option_map (reduce np r) (selected_energies refs i j k)
  end.
End EnergyGrid.

(** The energy grid of an instance: four axes, the last one indexed by
    the channel names, which are pairwise distinct. *)
Definition energy_grid (w : world) (nx ny nz : nat) : Prop :=
  shape (_grid (self w))
    = [nx; ny; nz; length (_type_energy_grids (self w))]
  /\ well_shaped (_grid (self w))
  /\ NoDup (_type_energy_grids (self w)).

(** A non-empty sequence of distinct names, all of them channels. *)
Definition valid_refs (w : world) (refs : list string) : Prop :=
  refs <> []
  /\ NoDup refs
  /\ forall name, In name refs -> In name (_type_energy_grids (self w)).

(** The value of a volume at a lattice point. *)
Definition at_point {A} (v : ndarray A) (ny nz i j k : nat) : option A :=
  nth_error (data v) (offset3 ny nz i j k).

(** Number of vacant points of a volume. *)
Definition vacant_count (v : ndarray bool) : nat := count_nonzero (data v).

(** Every array alive in [w] is alive and unchanged in [w']. *)
Definition preserved (w w' : world) : Prop :=
  forall l a, lookup (heap w) l = Some a -> lookup (heap w') l = Some a.

(** The array [r] is none of the volumes the instance holds on to. *)
Definition detached (w : world) (r : loc) : Prop :=
  _grid_vacancy (self w) <> Some r /\ _grid_buriedness (self w) <> Some r.

(** The volume an attribute refers to. *)
Definition volume (w : world) (field : attributes -> option loc)
  : option (ndarray bool) :=
  match field (self w) with
  | Some l => lookup (heap w) l
  | None => None
  end.

(** The attributes refer to arrays that are alive. *)
Definition well_formed (w : world) : Prop :=
  (forall l, _grid_vacancy (self w) = Some l -> l < length (heap w))
  /\ (forall l, _grid_buriedness (self w) = Some l -> l < length (heap w)).

(** What a caller holds after a call from [w] to [w'] that returned [r]
    as the copy of the volume in [field]: a new array with the content
    of that volume, which is none of the arrays of the instance, so that
    writing into it changes neither volume of the instance. *)
Definition returned_copy (w w' : world) (field : attributes -> option loc)
           (r : loc) : Prop :=
  lookup (heap w) r = None
  /\ (exists a, lookup (heap w') r = Some a /\ volume w' field = Some a)
  /\ detached w' r
  /\ forall i b,
       volume (snd (setitem r i b w')) _grid_vacancy
         = volume w' _grid_vacancy
       /\ volume (snd (setitem r i b w')) _grid_buriedness
          = volume w' _grid_buriedness.

End Contract.

Import Contract.

(* ================================================================= *)
(** ** A small instance *)

Module Scenario.

Definition f (n : Z) : float64 := Float64.of_Z n.

(** Two lattice points along the third axis; the channels are the probe
    ["A"], the electrostatic potential and the desolvation energy. *)
Definition energies : ndarray float64 :=
  NDArray [1; 1; 2; 3] (map f [0; 5; 1;   3; -4; 2]%Z).

Definition fresh : world := __init__ [] ["A"] Float64.one energies.

Definition classify := calculate_vacancy_from_energy reference.
Definition analyze :=
  calculate_buriedness_from_psp_count
    BindingSite.count_psp_events_from_vacancy_tensor.

(** The world after [classify(["A", "e"], 2.0, "sum")]: the sums are 5.0
    and -1.0, so the first point is occupied and the second vacant. *)
Definition classified : world :=
  snd (classify (Sequence ["A"; "e"]) (f 2) (Some "sum") false fresh).

(** The concrete scenario of the specification: a 3x3x3 volume that is
    vacant except at the face centres (0,1,1) and (2,1,1). *)
Definition cube : ndarray bool :=
  NDArray [3; 3; 3]
    [true; true; true;   true; false; true;   true; true; true;
     true; true; true;   true; true; true;    true; true; true;
     true; true; true;   true; false; true;   true; true; true].

End Scenario.

(* ================================================================= *)
(** ** Construction of an instance *)

Module Construction.

(** What [__init__] obtains from outside the class: the file system and
    [pathlib], the PDBQT parser, the table of AutoDock atom types and
    AutoGrid4. Paths are kept as strings. *)
Record environment : Type := Environment {
  (* [Path(p).is_file()] *)
  is_file : string -> bool;
  (* [pdbqt.parse_pdbqt(filepath_pdbqt=p)["ATOM"]]: the exception it raises,
     if any. The table it returns goes to [_df_pdbqt], which no method
     reads. *)
  parse_pdbqt : string -> option exception;
  (* [Path(p).mkdir(parents=True, exist_ok=True)]: the exception it raises,
     if any. *)
  mkdir : string -> option exception;
  (* [p.parent], [p.stem] and [p / q] *)
  parent : string -> string;
  stem : string -> string;
  joinpath : string -> string -> string;
  (* [DATA_AUTODOCK_ATOM_TYPE.type.values] *)
  autodock_atom_types : list string;
  (* [str] of a numpy array of strings, as an f-string puts it in a
     message *)
  array_str : list string -> string;
  (* [autogrid.calculate_npts(dimensions_pocket, spacing)] *)
  calculate_npts :
    option (float64 * float64 * float64) -> float64 -> exception + Z * Z * Z;
  (* [autogrid.routine_run_autogrid(receptor, gridcenter, npts, spacing,
     ligand_types, path_output)] *)
  routine_run_autogrid :
    string -> option (float64 * float64 * float64) -> Z * Z * Z -> float64 ->
    list string -> string -> exception + ndarray float64
}.

(** The parameters of [__init__]; [coords_grid_center = None] stands for
    ["auto"]. *)
Record arguments : Type := Arguments {
  filepath_target_structure : string;
  path_output : option string;
  type_probes : list string;
  coords_grid_center : option (float64 * float64 * float64);
  spacing_grid_points : float64;
  dims_grid : option (float64 * float64 * float64);
  npts : option (Z * Z * Z)
}.

(** The calls [__init__] makes that act on the outside world. *)
Inductive call : Type :=
| Mkdir (path : string)
| RunAutogrid (receptor : string) (npts : Z * Z * Z)
              (ligand_types : list string) (path_output : string).

(** Lines 75-119: the checks of the input file and of the probe types,
    then the attributes and the run of AutoGrid4. The result is the new
    instance or the exception raised, with the outside calls made on the
    way. *)
Definition __init__ (env : environment) (h : store) (a : arguments)
  : (exception + world) * list call :=
  let filepath_target := filepath_target_structure a in
  if negb (is_file env filepath_target) then
    (inl (ValueError "Input filepath does not point to a file."), [])
  else
    match parse_pdbqt env filepath_target with
    | Some _ =>
        (inl (ValueError "Could not parse the input PDBQT file."), [])
    | None =>
        let '(path_output, raised, calls) :=
          match path_output a with
          | None =>
              (joinpath env (parent env filepath_target)
                        (stem env filepath_target), None, [])
          | Some p => (p, mkdir env p, [Mkdir p])
          end in
        match raised with
        | Some e => (inl e, calls)
        | None =>
            let probe_is_invalid :=
              isin (type_probes a) (autodock_atom_types env) true in
            if any probe_is_invalid then
              (inl (ValueError
                      ("The following `type_probes` are not valid AutoDock atom types: "
                         ++ array_str env
                              (compress probe_is_invalid (type_probes a)))%string),
               calls)
            else
              match
                match npts a with
                | Some n => inr n
                | None =>
                    calculate_npts env (dims_grid a) (spacing_grid_points a)
                end
              with
              | inl e => (inl e, calls)
              | inr n =>
                  let output :=
                    joinpath env path_output (stem env filepath_target) in
                  let run :=
                    RunAutogrid filepath_target n (type_probes a) output in
                  match routine_run_autogrid env filepath_target
                          (coords_grid_center a) n (spacing_grid_points a)
                          (type_probes a) output with
                  | inl e => (inl e, calls ++ [run])
                  | inr grid =>
                      (inr (T2FPharm.__init__ h (type_probes a)
                              (spacing_grid_points a) grid),
                       calls ++ [run])
                  end
              end
        end
    end.

(** A stand-in for the outside world: one input file, the atom types the
    docstring names, and an AutoGrid4 that returns the small grid of the
    instance above. *)
Definition sample_environment : environment :=
  {| is_file := fun p => String.eqb p "target.pdbqt";
     parse_pdbqt := fun _ => None;
     mkdir := fun _ => None;
     parent := fun _ => ".";
     stem := fun _ => "target";
     joinpath := fun p q => (p ++ "/" ++ q)%string;
     autodock_atom_types := ["A"; "C"; "HD"; "N"; "NA"; "OA"; "SA"; "Cl"];
     array_str := str_short;
     calculate_npts := fun _ _ => inr (0, 0, 1)%Z;
     routine_run_autogrid := fun _ _ _ _ _ _ => inr Scenario.energies |}.

Definition sample_arguments (probes : list string) (output : option string)
  : arguments :=
  {| filepath_target_structure := "target.pdbqt";
     path_output := output;
     type_probes := probes;
     coords_grid_center := None;
     spacing_grid_points := Float64.one;
     dims_grid := Some (Scenario.f 16, Scenario.f 16, Scenario.f 16);
     npts := None |}.

End Construction.

(* ================================================================= *)
(** * Properties *)

(** ** Comparisons of binary64 values *)

Lemma lt_le_trans (x a b : float64) :
  Float64.lt x a = true -> Float64.le a b = true -> Float64.lt x b = true.
Proof.
  unfold Float64.lt, Float64.le, SFltb, SFleb, SFcompare.
  destruct x as [sx|sx| |sx mx ex], a as [sa|sa| |sa ma ea],
    b as [sb|sb| |sb mb eb];
    try destruct sx; try destruct sa; try destruct sb;
    try discriminate; try reflexivity;
    change (Pos.compare_cont Eq) with Pos.compare;
    destruct (Z.compare_spec ex ea), (Z.compare_spec ea eb),
      (Z.compare_spec ex eb);
    try discriminate; try reflexivity; try lia;
    destruct (Pos.compare_spec mx ma), (Pos.compare_spec ma mb),
      (Pos.compare_spec mx mb);
    simpl; try discriminate; try reflexivity; try lia.
Qed.

(** ** Rows, masks and lookups *)

Section NumpyFacts.
Context {A : Type}.

Lemma length_lanes (c n : nat) (l : list A) : length (lanes c n l) = n.
Proof.
  revert l; induction n as [|n IH]; intros l; simpl; [reflexivity|].
  now rewrite IH.
Qed.

Lemma nth_error_lanes (c n p : nat) (l : list A) :
  p < n ->
  nth_error (lanes c n l) p = Some (firstn c (skipn (p * c) l)).
Proof.
  revert p l; induction n as [|n IH]; intros p l Hp; [lia|].
  destruct p as [|p]; simpl; [reflexivity|].
  rewrite IH by lia.
  now rewrite Nat.add_comm, <- skipn_skipn.
Qed.

Lemma length_row (c n p : nat) (l : list A) :
  length l = n * c -> p < n ->
  length (firstn c (skipn (p * c) l)) = c.
Proof.
  intros Hl Hp. rewrite length_firstn, length_skipn. nia.
Qed.

Lemma compress_map_filter (f : A -> bool) (l : list A) :
  compress (map f l) l = filter f l.
Proof.
  induction l as [|x l IH]; simpl; [reflexivity|].
  now destruct (f x); rewrite IH.
Qed.

Lemma length_compress (mask : list bool) (l : list A) :
  length mask = length l ->
  length (compress mask l) = count_nonzero mask.
Proof.
  unfold count_nonzero.
  revert l; induction mask as [|b mask IH]; intros [|x l] Hl;
    simpl in *; try reflexivity; try discriminate.
  destruct b; simpl; rewrite IH by lia; reflexivity.
Qed.

Lemma nth_error_update_other (l : list A) (i j : nat) (x : A) :
  i <> j -> nth_error (update l i x) j = nth_error l j.
Proof.
  revert i j; induction l as [|y l IH]; intros [|i] [|j] H; simpl;
    try reflexivity; try lia.
  apply IH; lia.
Qed.

Lemma nth_error_snoc (l : list A) (x : A) :
  nth_error (l ++ [x]) (length l) = Some x.
Proof.
  rewrite nth_error_app2 by lia. now rewrite Nat.sub_diag.
Qed.

Lemma nth_error_concat_singletons (f : list A -> list A) (ll : list (list A))
      (p : nat) (row : list A) (x : A) :
  (forall r, In r ll -> length (f r) = 1) ->
  nth_error ll p = Some row -> f row = [x] ->
  nth_error (concat (map f ll)) p = Some x.
Proof.
  revert p; induction ll as [|r ll IH]; intros p Hlen Hp Hx.
  - destruct p; discriminate.
  - destruct p as [|p]; simpl in *.
    + injection Hp as ->. now rewrite Hx.
    + destruct (f r) as [|y [|z t]] eqn:E;
        try (specialize (Hlen r (or_introl eq_refl)); rewrite E in Hlen;
             simpl in Hlen; lia).
      simpl. apply IH; auto.
Qed.
End NumpyFacts.

Lemma size_dims3 (nx ny nz : nat) : size [nx; ny; nz] = nx * ny * nz.
Proof. unfold size; simpl; lia. Qed.

Lemma rows_dims4 {A} (nx ny nz c : nat) (d : list A) :
  rows (NDArray [nx; ny; nz; c] d) = lanes c (nx * ny * nz) d.
Proof.
  unfold rows, last_dim, lead_dims. cbn [shape data last removelast].
  now rewrite size_dims3.
Qed.

Lemma offset3_lt (nx ny nz i j k : nat) :
  i < nx -> j < ny -> k < nz -> offset3 ny nz i j k < nx * ny * nz.
Proof.
  intros Hi Hj Hk. unfold offset3.
  assert (H1 : i * ny + j + 1 <= nx * ny) by nia.
  assert (H2 : (i * ny + j + 1) * nz <= nx * ny * nz)
    by (apply Nat.mul_le_mono_r; exact H1).
  lia.
Qed.

(** ** Channel selection *)

Section ChannelFacts.
Variable refs : list string.

Let requested (name : string) : bool := existsb (String.eqb name) refs.

Lemma requested_In (name : string) : requested name = true <-> In name refs.
Proof.
  unfold requested. rewrite existsb_exists. split.
  - intros [x [Hx E]]. apply String.eqb_eq in E. now subst.
  - intros H. exists name. split; [exact H | apply String.eqb_refl].
Qed.

Lemma isin_requested (names : list string) :
  isin names refs false = map requested names.
Proof. reflexivity. Qed.

Lemma count_nonzero_map {A} (f : A -> bool) (l : list A) :
  count_nonzero (map f l) = length (filter f l).
Proof.
  unfold count_nonzero.
  induction l as [|x l IH]; simpl; [reflexivity|].
  destruct (f x); simpl; now rewrite IH.
Qed.

Lemma traverse_ext_in {A B} (f g : A -> option B) (l : list A) :
  (forall x, In x l -> f x = g x) -> traverse f l = traverse g l.
Proof.
  induction l as [|x l IH]; intros H; simpl; [reflexivity|].
  rewrite (H x (or_introl eq_refl)), IH; [reflexivity|].
  intros y Hy. apply H. now right.
Qed.

(** Selecting with the boolean mask of the requested names is looking
    each requested channel up by its name. *)
Lemma traverse_channel_compress (names : list string)
      (values : list float64) :
  NoDup names -> length values = length names ->
  traverse (fun name => channel name names values) (filter requested names)
  = Some (compress (map requested names) values).
Proof.
  revert values; induction names as [|c names IH];
    intros [|v values] Hnd Hlen; simpl in *; try discriminate;
    [reflexivity|].
  inversion Hnd as [|? ? Hnotin Hnd']; subst.
  assert (Hrest :
    traverse (fun name => if String.eqb c name then Some v
                          else channel name names values)
             (filter requested names)
    = Some (compress (map requested names) values)).
  { rewrite <- (IH values Hnd') by lia.
    apply traverse_ext_in. intros x Hx.
    apply filter_In in Hx. destruct Hx as [Hx _].
    destruct (String.eqb_spec c x) as [->|_]; [contradiction|reflexivity]. }
  destruct (requested c); simpl.
  - now rewrite String.eqb_refl, Hrest.
  - exact Hrest.
Qed.

Lemma selected_count (names : list string) :
  NoDup names -> NoDup refs -> (forall n, In n refs -> In n names) ->
  count_nonzero (isin names refs false) = length refs.
Proof.
  intros Hn Hr Hin. rewrite isin_requested, count_nonzero_map.
  apply Nat.le_antisymm.
  - apply NoDup_incl_length; [now apply NoDup_filter|].
    intros x Hx. apply filter_In in Hx. now apply requested_In.
  - apply NoDup_incl_length; [exact Hr|].
    intros x Hx. apply filter_In. split; [now apply Hin|].
    now apply requested_In.
Qed.

Lemma none_missing (names : list string) :
  (forall n, In n refs -> In n names) ->
  any (isin refs names true) = false.
Proof.
  intros Hin. unfold any, isin. apply not_true_is_false. intros H.
  apply existsb_exists in H. destruct H as [b [Hb ->]].
  apply in_map_iff in Hb. destruct Hb as [x [E Hx]].
  assert (K : existsb (String.eqb x) names = true).
  { apply existsb_exists. exists x. split; [now apply Hin|].
    apply String.eqb_refl. }
  rewrite K in E. discriminate.
Qed.
End ChannelFacts.

(** ** What a call does to the world *)

Section CallFacts.
Variable np : reductions.
Variable count_events :
  ndarray bool -> float64 -> Z -> float64 -> exception + ndarray Z.

Lemma length_snoc {A} (l : list A) (x : A) : length (l ++ [x]) = S (length l).
Proof. rewrite length_app; simpl; lia. Qed.

(** The classification call, branch by branch. *)
Lemma vacancy_call (arg : energy_refs_arg) (cutoff : float64)
      (mode : option string) (rc : bool) (w : world) :
  calculate_vacancy_from_energy np arg cutoff mode rc w
  = if negb (mode_checked np arg mode) then
      (inl (ValueError "Input argument `mode` not recognized."), w)
    else if any (isin (names_of arg) (_type_energy_grids (self w)) true) then
      (inl (ValueError
              ("The following energy grids were not calculated: "
                 ++ np_str np (compress
                           (isin (names_of arg) (_type_energy_grids (self w)) true)
                           (names_of arg)))%string), w)
    else
      match energy_vals np (self w) (names_of arg) mode with
      | inl e => (inl e, w)
      | inr ev =>
          (inr (if rc then Some (S (length (heap w))) else None),
           World (heap w ++ less ev cutoff
                    :: (if rc then [less ev cutoff] else []))
                 (with_grid_vacancy (self w) (length (heap w))))
      end.
Proof.
  unfold calculate_vacancy_from_energy, mode_checked, names_of.
  assert (Hrest : forall names,
    (w0 <- get ;;
     let not_calculated := isin names (_type_energy_grids (self w0)) true in
     if any not_calculated then
       raise (ValueError
                ("The following energy grids were not calculated: "
                   ++ np_str np (compress not_calculated names))%string)
     else
       energy_vals <- lift (energy_vals np (self w0) names mode) ;;
       vacancy <- new_array (less energy_vals cutoff) ;;
       set_grid_vacancy vacancy ;;
       if rc
       then
         v <- getattr "_grid_vacancy" _grid_vacancy ;;
         c <- copy v ;;
         ret (Some c)
       else ret None)%py w
    = if any (isin names (_type_energy_grids (self w)) true) then
        (inl (ValueError
                ("The following energy grids were not calculated: "
                   ++ np_str np (compress
                             (isin names (_type_energy_grids (self w)) true)
                             names))%string), w)
      else
        match energy_vals np (self w) names mode with
        | inl e => (inl e, w)
        | inr ev =>
            (inr (if rc then Some (S (length (heap w))) else None),
             World (heap w ++ less ev cutoff
                      :: (if rc then [less ev cutoff] else []))
                   (with_grid_vacancy (self w) (length (heap w))))
        end).
  { intros names. unfold bind at 1. unfold get at 1. cbv beta iota.
    destruct (any (isin names (_type_energy_grids (self w)) true));
      [reflexivity|].
    unfold bind at 1.
    destruct (energy_vals np (self w) names mode) as [e|ev];
      [reflexivity|].
    unfold lift, ret at 1. cbv beta iota.
    unfold bind at 1, new_array at 1. cbv beta iota.
    unfold bind at 1, set_grid_vacancy at 1. cbv beta iota.
    destruct rc; [|reflexivity].
    unfold copy. unfold bind, getattr, read_array, new_array, lookup, ret.
    cbn [heap self _grid_vacancy with_grid_vacancy].
    rewrite nth_error_snoc. cbn [heap self].
    rewrite length_snoc, <- app_assoc. reflexivity. }
  destruct arg as [names|names].
  - unfold bind at 1.
    destruct (dict_contains (reducing_op np) mode); cbn [negb];
      [|reflexivity].
    unfold ret at 1. cbv beta iota. apply Hrest.
  - unfold bind at 1, ret at 1. cbv beta iota. cbn [negb]. apply Hrest.
Qed.

(** The buriedness call, branch by branch. *)
Lemma buriedness_call (num_directions : Z) (psp_len_max : float64)
      (psp_count_min : Z) (rc : bool) (w : world) :
  calculate_buriedness_from_psp_count count_events
    num_directions psp_len_max psp_count_min rc w
  = match _grid_vacancy (self w) with
    | None => (inl (AttributeError "_grid_vacancy"), w)
    | Some v =>
        match lookup (heap w) v with
        | None => (inl (SystemError "no such object"), w)
        | Some grid_vacancy =>
            match count_events grid_vacancy (_spacing_grid_points (self w))
                    num_directions psp_len_max with
            | inl e => (inl e, w)
            | inr counts =>
                (inr (if rc then Some (S (length (heap w))) else None),
                 World (heap w ++ greater_equal counts psp_count_min
                          :: (if rc
                              then [greater_equal counts psp_count_min]
                              else []))
                       (with_grid_buriedness (self w) (length (heap w))))
            end
        end
    end.
Proof.
  unfold calculate_buriedness_from_psp_count.
  unfold bind at 1, getattr at 1.
  destruct (_grid_vacancy (self w)) as [v|]; [|reflexivity].
  unfold bind at 1, read_array at 1.
  destruct (lookup (heap w) v) as [gv|]; [|reflexivity].
  unfold bind at 1, get at 1. cbv beta iota.
  unfold bind at 1.
  destruct (count_events gv (_spacing_grid_points (self w)) num_directions
              psp_len_max) as [e|counts]; [reflexivity|].
  unfold lift, ret at 1. cbv beta iota.
  unfold bind at 1, new_array at 1. cbv beta iota.
  unfold bind at 1, set_grid_buriedness at 1. cbv beta iota.
  destruct rc; [|reflexivity].
  unfold copy. unfold bind, getattr, read_array, new_array, lookup, ret.
  cbn [heap self _grid_buriedness with_grid_buriedness].
  rewrite nth_error_snoc. cbn [heap self].
  rewrite length_snoc, <- app_assoc. reflexivity.
Qed.
End CallFacts.

(** ** The energies compared with the cutoff *)

Lemma lanes_concat {A} (m : nat) (ll : list (list A)) :
  (forall r, In r ll -> length r = m) ->
  lanes m (length ll) (concat ll) = ll.
Proof.
  induction ll as [|r ll IH]; intros H; simpl; [reflexivity|].
  assert (Hr : length r = m) by (apply H; now left).
  subst m.
  rewrite firstn_app, skipn_app, Nat.sub_diag, firstn_all, skipn_all.
  simpl. rewrite app_nil_r. f_equal.
  apply IH. intros r' Hr'. apply H. now right.
Qed.

Section EnergyFacts.
Variable np : reductions.
Variable w : world.
Variables nx ny nz : nat.
Hypothesis Hgrid : energy_grid w nx ny nz.

Let names := _type_energy_grids (self w).
Let grid := _grid (self w).

Lemma grid_rows : rows grid = lanes (length names) (nx * ny * nz) (data grid).
Proof.
  destruct Hgrid as [Hs _]. unfold rows, grid, names. rewrite Hs.
  unfold last_dim, lead_dims. cbn [last removelast].
  now rewrite size_dims3.
Qed.

Lemma grid_length : length (data grid) = nx * ny * nz * length names.
Proof.
  destruct Hgrid as [Hs [Hw _]]. unfold well_shaped in Hw.
  unfold grid, names. rewrite Hw, Hs. unfold size; simpl. lia.
Qed.

Lemma grid_row_at (i j k : nat) :
  i < nx -> j < ny -> k < nz ->
  nth_error (rows grid) (offset3 ny nz i j k)
  = Some (energies_at names grid ny nz i j k).
Proof.
  intros Hi Hj Hk. rewrite grid_rows.
  apply nth_error_lanes. now apply offset3_lt.
Qed.

Lemma grid_row_length (r : list float64) :
  In r (rows grid) -> length r = length names.
Proof.
  intros Hr. apply In_nth_error in Hr. destruct Hr as [p Hp].
  assert (Hlt : p < nx * ny * nz).
  { rewrite grid_rows in Hp.
    rewrite <- (length_lanes (length names) (nx * ny * nz) (data grid)).
    apply nth_error_Some. congruence. }
  rewrite grid_rows, nth_error_lanes in Hp by exact Hlt.
  injection Hp as <-.
  apply (length_row _ (nx * ny * nz)); [apply grid_length | exact Hlt].
Qed.

Lemma energies_at_length (i j k : nat) :
  i < nx -> j < ny -> k < nz ->
  length (energies_at names grid ny nz i j k) = length names.
Proof.
  intros Hi Hj Hk. apply grid_row_length.
  eapply nth_error_In. now apply grid_row_at.
Qed.

Variable refs : list string.
Hypothesis Hrefs : valid_refs w refs.

Let mask := isin names refs false.

Lemma mask_length : length mask = length names.
Proof. unfold mask, isin. apply length_map. Qed.

Lemma mask_count : count_nonzero mask = length refs.
Proof.
  destruct Hgrid as [_ [_ Hnd]]. destruct Hrefs as [_ [Hr Hin]].
  now apply selected_count.
Qed.

Lemma subgrid_ref_eq :
  getitem_ellipsis_mask grid mask
  = inr (NDArray [nx; ny; nz; length refs]
                 (concat (map (compress mask) (rows grid)))).
Proof.
  unfold getitem_ellipsis_mask.
  destruct Hgrid as [Hs _]. fold grid names in Hs. rewrite Hs.
  unfold last_dim, lead_dims. cbn [last removelast].
  rewrite mask_length, Nat.eqb_refl, mask_count. reflexivity.
Qed.

Lemma selected_at (i j k : nat) :
  i < nx -> j < ny -> k < nz ->
  selected_energies names grid ny nz refs i j k
  = Some (compress mask (energies_at names grid ny nz i j k)).
Proof.
  intros Hi Hj Hk. destruct Hgrid as [_ [_ Hnd]].
  unfold selected_energies, mask. rewrite isin_requested.
  apply traverse_channel_compress; [exact Hnd|].
  now apply energies_at_length.
Qed.

Lemma selected_length (r : list float64) :
  In r (rows grid) -> length (compress mask r) = length refs.
Proof.
  intros Hr. rewrite length_compress, mask_count; [reflexivity|].
  rewrite mask_length. symmetry. now apply grid_row_length.
Qed.
End EnergyFacts.

Lemma dict_get_mode_of (np : reductions) (r : reduction) :
  exists id, dict_get (reducing_op np) (Some (mode_of r))
             = Some (ReductionOp (reduce np r) id).
Proof. destruct r; eexists; reflexivity. Qed.

Lemma dict_contains_mode_of (np : reductions) (r : reduction) :
  dict_contains (reducing_op np) (Some (mode_of r)) = true.
Proof. destruct r; reflexivity. Qed.

Section EnergyVals.
Variable np : reductions.
Variable w : world.
Variables nx ny nz : nat.
Hypothesis Hgrid : energy_grid w nx ny nz.

Let names := _type_energy_grids (self w).
Let grid := _grid (self w).

(** One reference: the sub-grid itself, with its channel axis of
    length one. *)
Lemma energy_vals_one (name : string) (mode : option string) :
  valid_refs w [name] ->
  energy_vals np (self w) [name] mode
  = inr (NDArray [nx; ny; nz; 1]
           (concat (map (compress (isin names [name] false)) (rows grid)))).
Proof.
  intros Hrefs. unfold energy_vals, names, grid.
  rewrite (subgrid_ref_eq w nx ny nz Hgrid [name] Hrefs). reflexivity.
Qed.

Lemma energy_vals_one_at (name : string) (i j k : nat) :
  valid_refs w [name] -> i < nx -> j < ny -> k < nz ->
  exists x,
    channel name names (energies_at names grid ny nz i j k) = Some x
    /\ nth_error
         (concat (map (compress (isin names [name] false)) (rows grid)))
         (offset3 ny nz i j k) = Some x.
Proof.
  intros Hrefs Hi Hj Hk. unfold names, grid.
  pose proof (selected_at w nx ny nz Hgrid [name] i j k Hi Hj Hk) as Hsel.
  unfold selected_energies in Hsel.
  assert (Hfilter :
    filter (fun n => existsb (String.eqb n) [name])
           (_type_energy_grids (self w)) = [name]).
  { pose proof (mask_count w nx ny nz Hgrid [name] Hrefs) as Hc.
    rewrite isin_requested, count_nonzero_map in Hc.
    destruct (filter (fun n => existsb (String.eqb n) [name])
                     (_type_energy_grids (self w)))
      as [|x [|y t]] eqn:E; simpl in Hc; try discriminate.
    assert (Hx : In x (filter (fun n => existsb (String.eqb n) [name])
                              (_type_energy_grids (self w))))
      by (rewrite E; now left).
    apply filter_In in Hx. destruct Hx as [_ Hx].
    apply requested_In in Hx. destruct Hx as [->|[]]. reflexivity. }
  rewrite Hfilter in Hsel. cbn [traverse] in Hsel.
  destruct (channel name (_type_energy_grids (self w))
              (energies_at (_type_energy_grids (self w)) (_grid (self w))
                           ny nz i j k))
    as [x|] eqn:Ech; [|discriminate].
  injection Hsel as Hsel.
  exists x. split; [reflexivity|].
  apply nth_error_concat_singletons
    with (row := energies_at (_type_energy_grids (self w)) (_grid (self w))
                             ny nz i j k).
  - intros r Hr.
    now rewrite (selected_length w nx ny nz Hgrid [name] Hrefs r Hr).
  - now apply (grid_row_at w nx ny nz Hgrid).
  - now symmetry.
Qed.

(** Several references: the reduction along the channel axis. *)
Lemma energy_vals_many (refs : list string) (mode : option string)
      (op : reduction_op) :
  valid_refs w refs -> length refs <> 1 ->
  dict_get (reducing_op np) mode = Some op ->
  energy_vals np (self w) refs mode
  = inr (NDArray [nx; ny; nz]
           (map (lane op)
                (map (compress (isin names refs false)) (rows grid)))).
Proof.
  intros Hrefs Hlen Hop. unfold energy_vals, names, grid.
  rewrite (subgrid_ref_eq w nx ny nz Hgrid refs Hrefs).
  cbn [shape]. unfold last_dim at 1. cbn [last].
  destruct (Nat.eqb_spec (length refs) 1) as [E|_]; [contradiction|].
  rewrite Hop. unfold reduce_last_axis. rewrite rows_dims4.
  cbn [shape data]. unfold last_dim, lead_dims. cbn [last removelast].
  assert (Hne : length refs <> 0).
  { destruct Hrefs as [Hne _]. destruct refs; [contradiction|discriminate]. }
  destruct (Nat.eqb_spec (length refs) 0) as [E|_]; [contradiction|].
  cbn [andb]. do 3 f_equal.
  replace (nx * ny * nz)
    with (length (map (compress (isin (_type_energy_grids (self w)) refs false))
                      (rows (_grid (self w))))).
  - apply lanes_concat. intros r Hr.
    apply in_map_iff in Hr. destruct Hr as [r0 [<- Hr0]].
    now apply (selected_length w nx ny nz Hgrid refs Hrefs).
  - rewrite length_map.
    rewrite (grid_rows w nx ny nz Hgrid). apply length_lanes.
Qed.

Lemma energy_vals_many_at (refs : list string) (op : reduction_op)
      (i j k : nat) :
  valid_refs w refs -> i < nx -> j < ny -> k < nz ->
  exists vals,
    selected_energies names grid ny nz refs i j k = Some vals
    /\ length vals = length refs
    /\ nth_error
         (map (lane op) (map (compress (isin names refs false)) (rows grid)))
         (offset3 ny nz i j k) = Some (lane op vals).
Proof.
  intros Hrefs Hi Hj Hk. unfold names, grid.
  exists (compress (isin (_type_energy_grids (self w)) refs false)
                   (energies_at (_type_energy_grids (self w))
                                (_grid (self w)) ny nz i j k)).
  pose proof (grid_row_at w nx ny nz Hgrid i j k Hi Hj Hk) as Hrow.
  split; [now apply (selected_at w nx ny nz Hgrid refs)|].
  split.
  - apply (selected_length w nx ny nz Hgrid refs Hrefs).
    eapply nth_error_In. exact Hrow.
  - rewrite map_map. now rewrite nth_error_map, Hrow.
Qed.
End EnergyVals.

(** ** Valid classification calls *)

Lemma not_singleton {A} (l : list A) :
  length l <> 1 -> forall (B : Type) (f : A -> B) (d : B),
  match l with [x] => f x | _ => d end = d.
Proof. intros H B f d. destruct l as [|x [|y t]]; simpl in *; congruence. Qed.

Lemma lookup_new (h : store) (a : ndarray bool) (rest : list (ndarray bool)) :
  lookup (h ++ a :: rest) (length h) = Some a.
Proof.
  unfold lookup. rewrite nth_error_app2 by lia. now rewrite Nat.sub_diag.
Qed.

Lemma lookup_old (h rest : store) (l : loc) (a : ndarray bool) :
  lookup h l = Some a -> lookup (h ++ rest) l = Some a.
Proof.
  unfold lookup. intros H. rewrite nth_error_app1; [exact H|].
  apply nth_error_Some. congruence.
Qed.

Lemma mode_checked_mode_of (np : reductions) (arg : energy_refs_arg)
      (r : reduction) :
  mode_checked np arg (Some (mode_of r)) = true.
Proof. destruct arg; [apply dict_contains_mode_of | reflexivity]. Qed.

(** The energies of a valid call: they exist, and at every lattice point
    they are the reduced scalar of the contract. *)
Lemma energy_vals_valid (np : reductions) (w : world) (nx ny nz : nat)
      (refs : list string) (r : reduction) :
  energy_grid w nx ny nz -> valid_refs w refs ->
  exists ev,
    energy_vals np (self w) refs (Some (mode_of r)) = inr ev
    /\ shape ev = (if length refs =? 1 then [nx; ny; nz; 1] else [nx; ny; nz])
    /\ forall i j k, i < nx -> j < ny -> k < nz ->
         exists s,
           reduced_scalar (_type_energy_grids (self w)) (_grid (self w))
                          ny nz np refs r i j k = Some s
           /\ nth_error (data ev) (offset3 ny nz i j k) = Some s.
Proof.
  intros Hgrid Hrefs.
  destruct (Nat.eq_dec (length refs) 1) as [Hone|Hmany].
  - destruct refs as [|name [|y t]]; try discriminate.
    eexists. split; [now apply (energy_vals_one np w nx ny nz Hgrid)|].
    split; [reflexivity|].
    intros i j k Hi Hj Hk. cbn [data reduced_scalar].
    destruct (energy_vals_one_at w nx ny nz Hgrid name i j k Hrefs Hi Hj Hk)
      as [x [Hx1 Hx2]].
    exists x. split; assumption.
  - destruct (dict_get_mode_of np r) as [id Hop].
    eexists. split;
      [now apply (energy_vals_many np w nx ny nz Hgrid refs _ _ Hrefs Hmany Hop)|].
    split.
    + cbn [shape]. destruct (Nat.eqb_spec (length refs) 1); [contradiction|].
      reflexivity.
    + intros i j k Hi Hj Hk. cbn [data].
      destruct (energy_vals_many_at w nx ny nz Hgrid refs
                  (ReductionOp (reduce np r) id) i j k Hrefs Hi Hj Hk)
        as [vals [Hsel [_ Hnth]]].
      exists (reduce np r vals). split; [|exact Hnth].
      unfold reduced_scalar.
      rewrite (not_singleton refs Hmany). now rewrite Hsel.
Qed.

(** A valid call succeeds and binds [_grid_vacancy] to the thresholded
    energies. *)
Lemma vacancy_call_valid (np : reductions) (w : world) (nx ny nz : nat)
      (arg : energy_refs_arg) (cutoff : float64) (r : reduction) (rc : bool) :
  energy_grid w nx ny nz -> valid_refs w (names_of arg) ->
  exists ev,
    energy_vals np (self w) (names_of arg) (Some (mode_of r)) = inr ev
    /\ calculate_vacancy_from_energy np arg cutoff (Some (mode_of r)) rc w
       = (inr (if rc then Some (S (length (heap w))) else None),
          World (heap w ++ less ev cutoff
                   :: (if rc then [less ev cutoff] else []))
                (with_grid_vacancy (self w) (length (heap w)))).
Proof.
  intros Hgrid Hrefs.
  destruct (energy_vals_valid np w nx ny nz _ r Hgrid Hrefs) as [ev [Hev _]].
  exists ev. split; [exact Hev|].
  rewrite vacancy_call, mode_checked_mode_of. cbn [negb].
  destruct Hrefs as [_ [_ Hin]].
  rewrite (none_missing _ _ Hin), Hev. reflexivity.
Qed.

(** ** The small instance *)

Lemma scenario_grid : energy_grid Scenario.fresh 1 1 2.
Proof.
  split; [reflexivity|]. split; [reflexivity|].
  repeat constructor; simpl; intuition discriminate.
Qed.

Lemma scenario_refs_two : valid_refs Scenario.fresh ["A"; "e"].
Proof.
  split; [discriminate|]. split.
  - repeat constructor; simpl; intuition discriminate.
  - simpl. intuition.
Qed.

Lemma init_well_formed (h : store) (type_probes : list string)
      (spacing : float64) (energies : ndarray float64) :
  well_formed (__init__ h type_probes spacing energies).
Proof. split; intros l E; discriminate. Qed.

Example str_of_names : str_short ["X"; "Y"] = "['X' 'Y']".
Proof. reflexivity. Qed.

(** The scenario of the specification: with three directions, a reach of
    two spacings and one required event, only the centre is buried. *)
Example cube_buriedness :
  match BindingSite.count_psp_events_from_vacancy_tensor
          Scenario.cube Float64.one 3 (Scenario.f 2) with
  | inr counts =>
      data (greater_equal counts 1)
      = [false; false; false;   false; false; false;   false; false; false;
         false; false; false;   false; true; false;    false; false; false;
         false; false; false;   false; false; false;   false; false; false]
  | inl _ => False
  end.
Proof. vm_compute. reflexivity. Qed.

(* ================================================================= *)
(** ** The claims *)

(** C1. For every valid classification call (a grid of shape
    (nx, ny, nz, C) with distinct channel names, a non-empty sequence of
    distinct known names, one of the reduction modes) the call succeeds and
    the flag stored for each lattice point is [true] exactly when the
    reduced scalar of that point is strictly below the cutoff; the reduced
    scalar is the channel itself for one name and otherwise the reduction
    across exactly the requested channels at that point. *)
Theorem C1_vacant_iff_scalar_below_cutoff
        (np : reductions) (w : world) (nx ny nz : nat)
        (arg : energy_refs_arg) (cutoff : float64) (r : reduction)
        (return_copy : bool) :
  energy_grid w nx ny nz ->
  valid_refs w (names_of arg) ->
  exists ret w' vacancy,
    calculate_vacancy_from_energy np arg cutoff (Some (mode_of r))
      return_copy w = (inr ret, w')
    /\ volume w' _grid_vacancy = Some vacancy
    /\ forall i j k, i < nx -> j < ny -> k < nz ->
         exists s,
           reduced_scalar (_type_energy_grids (self w)) (_grid (self w))
                          ny nz np (names_of arg) r i j k = Some s
           /\ at_point vacancy ny nz i j k = Some (Float64.lt s cutoff).
Proof.
  intros Hgrid Hrefs.
  destruct (energy_vals_valid np w nx ny nz _ r Hgrid Hrefs)
    as [ev [Hev [_ Hat]]].
  destruct (vacancy_call_valid np w nx ny nz arg cutoff r return_copy
              Hgrid Hrefs) as [ev' [Hev' Hcall]].
  rewrite Hev in Hev'. injection Hev' as <-.
  eexists _, _, (less ev cutoff). split; [exact Hcall|]. split.
  - unfold volume. cbn [self heap with_grid_vacancy _grid_vacancy].
    apply lookup_new.
  - intros i j k Hi Hj Hk.
    destruct (Hat i j k Hi Hj Hk) as [s [Hs Hnth]].
    exists s. split; [exact Hs|].
    unfold at_point, less. cbn [data].
    now rewrite nth_error_map, Hnth.
Qed.

Lemma C1_witness :
  energy_grid Scenario.fresh 1 1 2
  /\ valid_refs Scenario.fresh ["A"; "e"]
  /\ exists ret w' vacancy,
       Scenario.classify (Sequence ["A"; "e"]) (Scenario.f 2) (Some "sum")
         false Scenario.fresh = (inr ret, w')
       /\ volume w' _grid_vacancy = Some vacancy
       /\ forall i j k, i < 1 -> j < 1 -> k < 2 ->
            exists s,
              reduced_scalar ["A"; "e"; "d"] Scenario.energies 1 2 reference
                             ["A"; "e"] Sum i j k = Some s
              /\ at_point vacancy 1 2 i j k
                 = Some (Float64.lt s (Scenario.f 2)).
Proof.
  split; [exact scenario_grid|]. split; [exact scenario_refs_two|].
  exact (C1_vacant_iff_scalar_below_cutoff reference Scenario.fresh 1 1 2
           (Sequence ["A"; "e"]) (Scenario.f 2) Sum false
           scenario_grid scenario_refs_two).
Defined.

(** C2. With exactly one channel name the stored volume keeps the channel
    axis of the sub-grid: its shape is (nx, ny, nz, 1), four axes, and not
    the (nx, ny, nz) of the lattice. *)
Theorem C2_single_channel_volume_has_four_axes
        (np : reductions) (w : world) (nx ny nz : nat)
        (arg : energy_refs_arg) (name : string) (cutoff : float64)
        (r : reduction) (return_copy : bool) :
  energy_grid w nx ny nz ->
  names_of arg = [name] ->
  In name (_type_energy_grids (self w)) ->
  exists ret w' vacancy,
    calculate_vacancy_from_energy np arg cutoff (Some (mode_of r))
      return_copy w = (inr ret, w')
    /\ volume w' _grid_vacancy = Some vacancy
    /\ shape vacancy = [nx; ny; nz; 1]
    /\ shape vacancy <> [nx; ny; nz].
Proof.
  intros Hgrid Hname Hin.
  assert (Hrefs : valid_refs w (names_of arg)).
  { rewrite Hname. split; [discriminate|]. split.
    - repeat constructor. simpl. tauto.
    - intros n [<-|[]]. exact Hin. }
  destruct (energy_vals_valid np w nx ny nz _ r Hgrid Hrefs)
    as [ev [Hev [Hshape _]]].
  destruct (vacancy_call_valid np w nx ny nz arg cutoff r return_copy
              Hgrid Hrefs) as [ev' [Hev' Hcall]].
  rewrite Hev in Hev'. injection Hev' as <-.
  rewrite Hname in Hshape. cbn in Hshape.
  eexists _, _, (less ev cutoff). split; [exact Hcall|]. split.
  - unfold volume. cbn [self heap with_grid_vacancy _grid_vacancy].
    apply lookup_new.
  - unfold less. cbn [shape]. rewrite Hshape. split; [reflexivity|discriminate].
Qed.

Lemma C2_witness :
  exists ret w' vacancy,
    Scenario.classify (Sequence ["A"]) (Scenario.f 2) (Some "sum") false
      Scenario.fresh = (inr ret, w')
    /\ volume w' _grid_vacancy = Some vacancy
    /\ shape vacancy = [1; 1; 2; 1]
    /\ shape vacancy <> [1; 1; 2].
Proof.
  apply (C2_single_channel_volume_has_four_axes reference Scenario.fresh
           1 1 2 (Sequence ["A"]) "A" (Scenario.f 2) Sum false).
  - exact scenario_grid.
  - reflexivity.
  - simpl. tauto.
Defined.

(** C3. While no vacancy volume has been computed, [_grid_vacancy] is not
    an attribute of the instance and the buriedness analysis raises,
    whatever its arguments; nothing is stored and nothing is returned. *)
Theorem C3_buriedness_before_vacancy_fails
        (count_events :
           ndarray bool -> float64 -> Z -> float64 -> exception + ndarray Z)
        (w : world) (num_directions : Z) (psp_len_max : float64)
        (psp_count_min : Z) (return_copy : bool) :
  _grid_vacancy (self w) = None ->
  calculate_buriedness_from_psp_count count_events
    num_directions psp_len_max psp_count_min return_copy w
  = (inl (AttributeError "_grid_vacancy"), w).
Proof. intros H. rewrite buriedness_call, H. reflexivity. Qed.

Lemma C3_witness :
  Scenario.analyze 7 (Scenario.f 10) 4 true Scenario.fresh
  = (inl (AttributeError "_grid_vacancy"), Scenario.fresh).
Proof.
  apply (C3_buriedness_before_vacancy_fails
           BindingSite.count_psp_events_from_vacancy_tensor Scenario.fresh
           7 (Scenario.f 10) 4 true).
  reflexivity.
Defined.




(** C5. A [Sequence] of references has its [mode] checked whatever its
    length: with one name and a [mode] that is no key of [reducing_op]
    (such as [None]) the call raises instead of ignoring [mode]. *)
Theorem C5_mode_is_checked_for_one_name
        (np : reductions) (w : world) (name : string) (cutoff : float64)
        (mode : option string) (return_copy : bool) :
  dict_contains (reducing_op np) mode = false ->
  calculate_vacancy_from_energy np (Sequence [name]) cutoff mode
    return_copy w
  = (inl (ValueError "Input argument `mode` not recognized."), w).
Proof.
  intros H. rewrite vacancy_call. unfold mode_checked. rewrite H. reflexivity.
Qed.

Lemma C5_witness :
  Scenario.classify (Sequence ["A"]) (Scenario.f 2) None false Scenario.fresh
  = (inl (ValueError "Input argument `mode` not recognized."), Scenario.fresh).
Proof.
  apply (C5_mode_is_checked_for_one_name reference Scenario.fresh "A"
           (Scenario.f 2) None false).
  reflexivity.
Defined.

(** ** Successful calls, read backwards *)

Lemma vacancy_call_inv (np : reductions) (arg : energy_refs_arg)
      (cutoff : float64) (mode : option string) (rc : bool)
      (w : world) (ret : option loc) (w' : world) :
  calculate_vacancy_from_energy np arg cutoff mode rc w = (inr ret, w') ->
  exists ev,
    mode_checked np arg mode = true
    /\ any (isin (names_of arg) (_type_energy_grids (self w)) true) = false
    /\ energy_vals np (self w) (names_of arg) mode = inr ev
    /\ ret = (if rc then Some (S (length (heap w))) else None)
    /\ w' = World (heap w ++ less ev cutoff
                     :: (if rc then [less ev cutoff] else []))
                  (with_grid_vacancy (self w) (length (heap w))).
Proof.
  rewrite vacancy_call.
  destruct (mode_checked np arg mode); cbn [negb]; [|discriminate].
  destruct (any (isin (names_of arg) (_type_energy_grids (self w)) true));
    [discriminate|].
  destruct (energy_vals np (self w) (names_of arg) mode) as [e|ev] eqn:Hev;
    [discriminate|].
  intros H. injection H as <- <-. exists ev. repeat split; reflexivity.
Qed.

Lemma buriedness_call_inv
      (count_events :
         ndarray bool -> float64 -> Z -> float64 -> exception + ndarray Z)
      (num_directions : Z) (psp_len_max : float64) (psp_count_min : Z)
      (rc : bool) (w : world) (ret : option loc) (w' : world) :
  calculate_buriedness_from_psp_count count_events
    num_directions psp_len_max psp_count_min rc w = (inr ret, w') ->
  exists v grid_vacancy counts,
    _grid_vacancy (self w) = Some v
    /\ lookup (heap w) v = Some grid_vacancy
    /\ count_events grid_vacancy (_spacing_grid_points (self w))
         num_directions psp_len_max = inr counts
    /\ ret = (if rc then Some (S (length (heap w))) else None)
    /\ w' = World (heap w ++ greater_equal counts psp_count_min
                     :: (if rc then [greater_equal counts psp_count_min]
                         else []))
                  (with_grid_buriedness (self w) (length (heap w))).
Proof.
  rewrite buriedness_call.
  destruct (_grid_vacancy (self w)) as [v|]; [|discriminate].
  destruct (lookup (heap w) v) as [gv|] eqn:Hv; [|discriminate].
  destruct (count_events gv (_spacing_grid_points (self w)) num_directions
              psp_len_max) as [e|counts] eqn:Hc; [discriminate|].
  intros H. injection H as <- <-. exists v, gv, counts.
  repeat split; assumption || reflexivity.
Qed.

(** ** Event counts *)










Lemma count_nonzero_monotone {A} (f g : A -> bool) (l : list A) :
  (forall x, f x = true -> g x = true) ->
  count_nonzero (map f l) <= count_nonzero (map g l).
Proof.
  intros H. unfold count_nonzero.
  induction l as [|x l IH]; simpl; [lia|].
  destruct (f x) eqn:E.
  - rewrite (H x E). simpl. lia.
  - destruct (g x); simpl; lia.
Qed.

(** C8. On one instance, with the same references and the same mode, and
    cutoffs c1 <= c2: when the classification with c1 succeeds, so does the
    classification with c2, and it marks at least as many points vacant. *)
Theorem C8_vacant_count_monotone_in_cutoff
        (np : reductions) (w : world) (arg : energy_refs_arg)
        (mode : option string) (c1 c2 : float64) (rc1 rc2 : bool)
        (ret1 : option loc) (w1 : world) (v1 : ndarray bool) :
  Float64.le c1 c2 = true ->
  calculate_vacancy_from_energy np arg c1 mode rc1 w = (inr ret1, w1) ->
  volume w1 _grid_vacancy = Some v1 ->
  exists ret2 w2 v2,
    calculate_vacancy_from_energy np arg c2 mode rc2 w = (inr ret2, w2)
    /\ volume w2 _grid_vacancy = Some v2
    /\ vacant_count v1 <= vacant_count v2.
Proof.
  intros Hle Hcall Hv1.
  apply vacancy_call_inv in Hcall.
  destruct Hcall as [ev [Hmode [Hany [Hev [_ ->]]]]].
  unfold volume in Hv1. cbn [self heap with_grid_vacancy _grid_vacancy] in Hv1.
  rewrite lookup_new in Hv1. injection Hv1 as <-.
  eexists _, _, (less ev c2). split; [|split].
  - rewrite vacancy_call, Hmode, Hany, Hev. reflexivity.
  - unfold volume. cbn [self heap with_grid_vacancy _grid_vacancy].
    apply lookup_new.
  - unfold vacant_count, less. cbn [data].
    apply count_nonzero_monotone. intros x Hx.
    now apply (lt_le_trans x c1 c2).
Qed.

Lemma C8_witness :
  exists ret2 w2 v2,
    Scenario.classify (Sequence ["A"; "e"]) (Scenario.f 6) (Some "sum") true
      Scenario.fresh = (inr ret2, w2)
    /\ volume w2 _grid_vacancy = Some v2
    /\ vacant_count (NDArray [1; 1; 2] [false; true]) <= vacant_count v2.
Proof.
  apply (C8_vacant_count_monotone_in_cutoff reference Scenario.fresh
           (Sequence ["A"; "e"]) (Some "sum") (Scenario.f 2) (Scenario.f 6)
           false true None Scenario.classified
           (NDArray [1; 1; 2] [false; true])).
  - reflexivity.
  - reflexivity.
  - reflexivity.
Defined.

(** ** Arrays of the caller and arrays of the instance *)

Lemma setitem_self (r : loc) (i : nat) (b : bool) (w : world) :
  self (snd (setitem r i b w)) = self w.
Proof.
  unfold setitem, bind, read_array.
  destruct (lookup (heap w) r); reflexivity.
Qed.

Lemma setitem_other (r l : loc) (i : nat) (b : bool) (w : world) :
  l <> r ->
  lookup (heap (snd (setitem r i b w))) l = lookup (heap w) l.
Proof.
  intros Hne. unfold setitem, bind, read_array.
  destruct (lookup (heap w) r); [|reflexivity].
  cbn [snd heap]. unfold lookup. apply nth_error_update_other. congruence.
Qed.

Lemma setitem_volume (r : loc) (i : nat) (b : bool) (w : world)
      (field : attributes -> option loc) :
  field (self w) <> Some r ->
  volume (snd (setitem r i b w)) field = volume w field.
Proof.
  intros Hne. unfold volume. rewrite setitem_self.
  destruct (field (self w)) as [l|]; [|reflexivity].
  apply setitem_other. congruence.
Qed.

Lemma preserved_app (h : store) (rest : store) (s s' : attributes) :
  preserved (World h s) (World (h ++ rest) s').
Proof. intros l a H. cbn [heap] in *. now apply lookup_old. Qed.

(** The copy made at the end of a call: the array after the one just
    stored. *)
Lemma returned_copy_intro (w : world) (a : ndarray bool) (s' : attributes)
      (field : attributes -> option loc) :
  (forall l, _grid_vacancy s' = Some l -> l <= length (heap w)) ->
  (forall l, _grid_buriedness s' = Some l -> l <= length (heap w)) ->
  field s' = Some (length (heap w)) ->
  returned_copy w (World (heap w ++ [a; a]) s') field (S (length (heap w))).
Proof.
  intros Hv Hb Hf.
  assert (Hdet : detached (World (heap w ++ [a; a]) s') (S (length (heap w)))).
  { split; cbn [self]; intros E; [apply Hv in E | apply Hb in E]; lia. }
  split; [|split; [|split]].
  - unfold lookup. apply nth_error_None. lia.
  - exists a. split.
    + unfold lookup. cbn [heap]. rewrite nth_error_app2 by lia.
      now replace (S (length (heap w)) - length (heap w)) with 1 by lia.
    + unfold volume. cbn [self heap]. rewrite Hf. apply lookup_new.
  - exact Hdet.
  - intros i b. destruct Hdet as [H1 H2].
    split; apply setitem_volume; assumption.
Qed.

(** C9. On a well-formed instance, a successful call of either method
    leaves every array that was alive before it unchanged (so nothing a
    caller already holds, and no volume produced earlier, is touched), and
    the copy it returns on request is a new array with the content of the
    stored volume that is none of the arrays of the instance: writing into
    it changes neither the vacancy nor the buriedness volume. *)
Theorem C9_returned_copies_are_detached
        (np : reductions)
        (count_events :
           ndarray bool -> float64 -> Z -> float64 -> exception + ndarray Z)
        (w : world) :
  well_formed w ->
  (forall arg cutoff mode return_copy ret w',
      calculate_vacancy_from_energy np arg cutoff mode return_copy w
      = (inr ret, w') ->
      well_formed w'
      /\ preserved w w'
      /\ forall r, ret = Some r -> returned_copy w w' _grid_vacancy r)
  /\ (forall num_directions psp_len_max psp_count_min return_copy ret w',
         calculate_buriedness_from_psp_count count_events
           num_directions psp_len_max psp_count_min return_copy w
         = (inr ret, w') ->
         well_formed w'
         /\ preserved w w'
         /\ forall r, ret = Some r -> returned_copy w w' _grid_buriedness r).
Proof.
  intros [Hwv Hwb]. split.
  - intros arg cutoff mode rc ret w' Hcall.
    apply vacancy_call_inv in Hcall.
    destruct Hcall as [ev [_ [_ [_ [-> ->]]]]].
    destruct w as [h s]. cbn [heap self] in *.
    split; [|split].
    + split; cbn [self heap with_grid_vacancy _grid_vacancy _grid_buriedness];
        intros l E; rewrite length_app; simpl.
      * injection E as <-. lia.
      * apply Hwb in E. lia.
    + apply preserved_app.
    + intros r Hr. destruct rc; [|discriminate]. injection Hr as <-.
      apply (returned_copy_intro (World h s));
        cbn [self heap with_grid_vacancy _grid_vacancy _grid_buriedness].
      * intros l E. injection E as <-. lia.
      * intros l E. apply Hwb in E. lia.
      * reflexivity.
  - intros nd len mn rc ret w' Hcall.
    apply buriedness_call_inv in Hcall.
    destruct Hcall as [v [gv [counts [_ [_ [_ [-> ->]]]]]]].
    destruct w as [h s]. cbn [heap self] in *.
    split; [|split].
    + split;
        cbn [self heap with_grid_buriedness _grid_vacancy _grid_buriedness];
        intros l E; rewrite length_app; simpl.
      * apply Hwv in E. lia.
      * injection E as <-. lia.
    + apply preserved_app.
    + intros r Hr. destruct rc; [|discriminate]. injection Hr as <-.
      apply (returned_copy_intro (World h s));
        cbn [self heap with_grid_buriedness _grid_vacancy _grid_buriedness].
      * intros l E. apply Hwv in E. lia.
      * intros l E. injection E as <-. lia.
      * reflexivity.
Qed.

Lemma scenario_well_formed : well_formed Scenario.classified.
Proof. split; intros l E; [injection E as <-; simpl; lia | discriminate]. Qed.

Lemma C9_witness :
  well_formed Scenario.classified
  /\ preserved Scenario.classified
       (snd (Scenario.analyze 3 (Scenario.f 2) 1 true Scenario.classified))
  /\ returned_copy Scenario.classified
       (snd (Scenario.analyze 3 (Scenario.f 2) 1 true Scenario.classified))
       _grid_buriedness 2.
Proof.
  split; [exact scenario_well_formed|].
  destruct (C9_returned_copies_are_detached reference
              BindingSite.count_psp_events_from_vacancy_tensor
              Scenario.classified scenario_well_formed) as [_ H].
  destruct (H 3%Z (Scenario.f 2) 1%Z true (Some 2)
              (snd (Scenario.analyze 3 (Scenario.f 2) 1 true
                      Scenario.classified)) eq_refl) as [_ [Hp Hr]].
  split; [exact Hp | exact (Hr 2 eq_refl)].
Defined.

(** C10. A successful call of either method stores the computed volume in
    its attribute; it returns [None] when [return_copy] is false, and when
    [return_copy] is true it returns another array with the content of the
    stored volume. *)
Theorem C10_copy_returned_only_on_request
        (np : reductions)
        (count_events :
           ndarray bool -> float64 -> Z -> float64 -> exception + ndarray Z)
        (w : world) :
  (forall arg cutoff mode return_copy ret w',
      calculate_vacancy_from_energy np arg cutoff mode return_copy w
      = (inr ret, w') ->
      exists l v,
        _grid_vacancy (self w') = Some l
        /\ lookup (heap w') l = Some v
        /\ (return_copy = false -> ret = None)
        /\ (return_copy = true ->
            exists r, ret = Some r /\ r <> l /\ lookup (heap w') r = Some v))
  /\ (forall num_directions psp_len_max psp_count_min return_copy ret w',
         calculate_buriedness_from_psp_count count_events
           num_directions psp_len_max psp_count_min return_copy w
         = (inr ret, w') ->
         exists l b,
           _grid_buriedness (self w') = Some l
           /\ lookup (heap w') l = Some b
           /\ (return_copy = false -> ret = None)
           /\ (return_copy = true ->
               exists r, ret = Some r /\ r <> l /\ lookup (heap w') r = Some b)).
Proof.
  assert (Hcopy : forall (h : store) (a : ndarray bool),
             lookup (h ++ [a; a]) (S (length h)) = Some a).
  { intros h a. unfold lookup. rewrite nth_error_app2 by lia.
    now replace (S (length h) - length h) with 1 by lia. }
  split.
  - intros arg cutoff mode rc ret w' Hcall.
    apply vacancy_call_inv in Hcall.
    destruct Hcall as [ev [_ [_ [_ [-> ->]]]]].
    exists (length (heap w)), (less ev cutoff).
    cbn [self heap with_grid_vacancy _grid_vacancy].
    split; [reflexivity|]. split; [apply lookup_new|]. split.
    + intros ->. reflexivity.
    + intros ->. exists (S (length (heap w))).
      split; [reflexivity|]. split; [lia|]. apply Hcopy.
  - intros nd len mn rc ret w' Hcall.
    apply buriedness_call_inv in Hcall.
    destruct Hcall as [v [gv [counts [_ [_ [_ [-> ->]]]]]]].
    exists (length (heap w)), (greater_equal counts mn).
    cbn [self heap with_grid_buriedness _grid_buriedness].
    split; [reflexivity|]. split; [apply lookup_new|]. split.
    + intros ->. reflexivity.
    + intros ->. exists (S (length (heap w))).
      split; [reflexivity|]. split; [lia|]. apply Hcopy.
Qed.

Lemma C10_witness :
  exists l v,
    _grid_vacancy (self Scenario.classified) = Some l
    /\ lookup (heap Scenario.classified) l = Some v
    /\ (false = false -> @None loc = None)
    /\ (false = true ->
        exists r, @None loc = Some r /\ r <> l
                  /\ lookup (heap Scenario.classified) r = Some v).
Proof.
  destruct (C10_copy_returned_only_on_request reference
              BindingSite.count_psp_events_from_vacancy_tensor
              Scenario.fresh) as [H _].
  exact (H (Sequence ["A"; "e"]) (Scenario.f 2) (Some "sum") false None
           Scenario.classified eq_refl).
Defined.

(** A caller writes into the copy it was given and classifies again with
    another cutoff: the volume stored by the first call, the copy and the
    newly stored volume are three arrays, and the first is as it was. *)
Example copy_then_mutate_then_reclassify :
  let run :=
    (r <- Scenario.classify (Sequence ["A"; "e"]) (Scenario.f 2) (Some "sum")
            true ;;
     match r with
     | Some c => setitem c 0 true
     | None => ret tt
     end ;;
     Scenario.classify (Sequence ["A"; "e"]) (Scenario.f 6) (Some "sum")
       false)%py in
  heap (snd (run Scenario.fresh))
  = [NDArray [1; 1; 2] [false; true];
     NDArray [1; 1; 2] [true; true];
     NDArray [1; 1; 2] [true; true]]
  /\ _grid_vacancy (self (snd (run Scenario.fresh))) = Some 2.
Proof. split; reflexivity. Qed.

(* ================================================================= *)
(** ** Further properties of the two methods *)

Lemma any_false_iff (refs names : list string) :
  any (isin refs names true) = false
  <-> forall n, In n refs -> In n names.
Proof.
  split; [|apply none_missing].
  intros H n Hn. unfold any, isin in H.
  destruct (existsb (String.eqb n) names) eqn:E.
  - now apply requested_In in E.
  - assert (K : existsb (fun b : bool => b)
                  (map (fun x => xorb true (existsb (String.eqb x) names)) refs)
                = true).
    { apply existsb_exists. exists true. split; [|reflexivity].
      apply in_map_iff. exists n. split; [|exact Hn]. now rewrite E. }
    rewrite K in H. discriminate.
Qed.

Lemma isin_same_members (names refs1 refs2 : list string) :
  (forall n, In n refs1 <-> In n refs2) ->
  isin names refs1 false = isin names refs2 false.
Proof.
  intros H. unfold isin. apply map_ext. intros n. f_equal.
  destruct (existsb (String.eqb n) refs1) eqn:E1,
           (existsb (String.eqb n) refs2) eqn:E2; try reflexivity.
  - apply requested_In, H, requested_In in E1. congruence.
  - apply requested_In, H, requested_In in E2. congruence.
Qed.

Lemma energy_vals_same_members (np : reductions) (s : attributes)
      (refs1 refs2 : list string) (mode : option string) :
  (forall n, In n refs1 <-> In n refs2) ->
  energy_vals np s refs1 mode = energy_vals np s refs2 mode.
Proof.
  intros H. unfold energy_vals.
  now rewrite (isin_same_members (_type_energy_grids s) refs1 refs2 H).
Qed.

Lemma lt_nan (x : float64) : Float64.lt x Float64.nan = false.
Proof. destruct x as [s|s| |s m e]; try destruct s; reflexivity. Qed.

Lemma dict_contains_false {V} (d : list (string * V)) (key : option string) :
  dict_contains d key = false -> dict_get d key = None.
Proof. unfold dict_contains. destruct (dict_get d key); [discriminate|reflexivity]. Qed.

(** X1. A call of either method that raises leaves the interpreter state
    as it was: no array is created and no attribute is rebound, so the
    volumes computed before stay the current ones. *)
Theorem X1_failed_calls_change_nothing
        (np : reductions)
        (count_events :
           ndarray bool -> float64 -> Z -> float64 -> exception + ndarray Z)
        (w : world) :
  (forall arg cutoff mode return_copy e w',
      calculate_vacancy_from_energy np arg cutoff mode return_copy w
      = (inl e, w') -> w' = w)
  /\ (forall num_directions psp_len_max psp_count_min return_copy e w',
         calculate_buriedness_from_psp_count count_events
           num_directions psp_len_max psp_count_min return_copy w
         = (inl e, w') -> w' = w).
Proof.
  split.
  - intros arg cutoff mode rc e w'. rewrite vacancy_call.
    destruct (mode_checked np arg mode); cbn [negb];
      [|intros H; now injection H].
    destruct (any (isin (names_of arg) (_type_energy_grids (self w)) true));
      [intros H; now injection H|].
    destruct (energy_vals np (self w) (names_of arg) mode);
      [intros H; now injection H | discriminate].
  - intros nd len mn rc e w'. rewrite buriedness_call.
    destruct (_grid_vacancy (self w)) as [v|]; [|intros H; now injection H].
    destruct (lookup (heap w) v) as [gv|]; [|intros H; now injection H].
    destruct (count_events gv (_spacing_grid_points (self w)) nd len);
      [intros H; now injection H | discriminate].
Qed.

Lemma X1_witness :
  snd (Scenario.classify (Sequence ["A"; "X"]) (Scenario.f 6) (Some "sum")
         true Scenario.classified) = Scenario.classified.
Proof.
  destruct (X1_failed_calls_change_nothing reference
              BindingSite.count_psp_events_from_vacancy_tensor
              Scenario.classified) as [H _].
  exact (H (Sequence ["A"; "X"]) (Scenario.f 6) (Some "sum") true
           (ValueError "The following energy grids were not calculated: ['X']")
           _ eq_refl).
Defined.

(** X2. The references select channels by membership only: two reference
    lists with the same members, in any order and with any repetitions,
    give the same successful call, with the same stored volume and the
    same return value. *)
Theorem X2_references_select_by_membership
        (np : reductions) (w : world) (refs1 refs2 : list string)
        (cutoff : float64) (mode : option string) (return_copy : bool)
        (ret : option loc) (w' : world) :
  (forall n, In n refs1 <-> In n refs2) ->
  (calculate_vacancy_from_energy np (Sequence refs1) cutoff mode
     return_copy w = (inr ret, w') ->
   calculate_vacancy_from_energy np (Sequence refs2) cutoff mode
     return_copy w = (inr ret, w'))
  /\ (calculate_vacancy_from_energy np (NotSequence refs1) cutoff mode
        return_copy w = (inr ret, w') ->
      calculate_vacancy_from_energy np (NotSequence refs2) cutoff mode
        return_copy w = (inr ret, w')).
Proof.
  intros Hsame.
  assert (Hcall : forall arg1 arg2,
    names_of arg1 = refs1 -> names_of arg2 = refs2 ->
    mode_checked np arg1 mode = mode_checked np arg2 mode ->
    calculate_vacancy_from_energy np arg1 cutoff mode return_copy w
    = (inr ret, w') ->
    calculate_vacancy_from_energy np arg2 cutoff mode return_copy w
    = (inr ret, w')).
  { intros arg1 arg2 H1 H2 Hm Hc.
    apply vacancy_call_inv in Hc.
    destruct Hc as [ev [Hmode [Hany [Hev [-> ->]]]]].
    rewrite vacancy_call, <- Hm, Hmode. cbn [negb].
    rewrite H1 in Hany, Hev. rewrite H2.
    assert (Hany2 : any (isin refs2 (_type_energy_grids (self w)) true) = false).
    { apply any_false_iff. intros n Hn. apply Hsame in Hn.
      revert n Hn. now apply any_false_iff. }
    rewrite Hany2.
    now rewrite <- (energy_vals_same_members np (self w) refs1 refs2 mode Hsame),
      Hev. }
  split; apply Hcall; reflexivity.
Qed.

Lemma X2_witness :
  Scenario.classify (Sequence ["e"; "A"; "A"]) (Scenario.f 2) (Some "sum")
    false Scenario.fresh = (inr None, Scenario.classified).
Proof.
  apply (X2_references_select_by_membership reference Scenario.fresh
           ["A"; "e"] ["e"; "A"; "A"] (Scenario.f 2) (Some "sum") false
           None Scenario.classified).
  - intros n. simpl. tauto.
  - reflexivity.
Defined.

(** X3. A successful classification rebinds [_grid_vacancy] and nothing
    else: the grid, the channel names and the spacing are as before, and
    [_grid_buriedness] goes on referring to the volume computed from the
    earlier vacancy volume. A successful buriedness analysis likewise
    rebinds only [_grid_buriedness] and leaves the vacancy volume alone. *)
Theorem X3_each_method_rebinds_one_attribute
        (np : reductions)
        (count_events :
           ndarray bool -> float64 -> Z -> float64 -> exception + ndarray Z)
        (w : world) :
  well_formed w ->
  (forall arg cutoff mode return_copy ret w',
      calculate_vacancy_from_energy np arg cutoff mode return_copy w
      = (inr ret, w') ->
      _grid (self w') = _grid (self w)
      /\ _type_energy_grids (self w') = _type_energy_grids (self w)
      /\ _spacing_grid_points (self w') = _spacing_grid_points (self w)
      /\ _grid_buriedness (self w') = _grid_buriedness (self w)
      /\ volume w' _grid_buriedness = volume w _grid_buriedness)
  /\ (forall num_directions psp_len_max psp_count_min return_copy ret w',
         calculate_buriedness_from_psp_count count_events
           num_directions psp_len_max psp_count_min return_copy w
         = (inr ret, w') ->
         _grid (self w') = _grid (self w)
         /\ _type_energy_grids (self w') = _type_energy_grids (self w)
         /\ _spacing_grid_points (self w') = _spacing_grid_points (self w)
         /\ _grid_vacancy (self w') = _grid_vacancy (self w)
         /\ volume w' _grid_vacancy = volume w _grid_vacancy).
Proof.
  intros [Hwv Hwb].
  assert (Hold : forall (h rest : store) (l : loc),
             l < length h -> lookup (h ++ rest) l = lookup h l).
  { intros h rest l Hl. unfold lookup. now apply nth_error_app1. }
  split.
  - intros arg cutoff mode rc ret w' Hcall.
    apply vacancy_call_inv in Hcall.
    destruct Hcall as [ev [_ [_ [_ [_ ->]]]]].
    cbn [self with_grid_vacancy _grid _type_energy_grids
         _spacing_grid_points _grid_buriedness].
    repeat (split; [reflexivity|]).
    unfold volume. cbn [self heap with_grid_vacancy _grid_buriedness].
    destruct (_grid_buriedness (self w)) as [l|] eqn:E; [|reflexivity].
    apply Hold. now apply Hwb.
  - intros nd len mn rc ret w' Hcall.
    apply buriedness_call_inv in Hcall.
    destruct Hcall as [v [gv [counts [_ [_ [_ [_ ->]]]]]]].
    cbn [self with_grid_buriedness _grid _type_energy_grids
         _spacing_grid_points _grid_vacancy].
    repeat (split; [reflexivity|]).
    unfold volume. cbn [self heap with_grid_buriedness _grid_vacancy].
    destruct (_grid_vacancy (self w)) as [l|] eqn:E; [|reflexivity].
    apply Hold. now apply Hwv.
Qed.

Lemma X3_witness :
  well_formed Scenario.classified
  /\ volume (snd (Scenario.analyze 3 (Scenario.f 2) 1 true Scenario.classified))
            _grid_vacancy
     = volume Scenario.classified _grid_vacancy.
Proof.
  split; [exact scenario_well_formed|].
  destruct (X3_each_method_rebinds_one_attribute reference
              BindingSite.count_psp_events_from_vacancy_tensor
              Scenario.classified scenario_well_formed) as [_ H].
  exact (proj2 (proj2 (proj2 (proj2
           (H 3%Z (Scenario.f 2) 1%Z true (Some 2)
              (snd (Scenario.analyze 3 (Scenario.f 2) 1 true
                      Scenario.classified)) eq_refl))))).
Defined.

(** X4. Classification is repeatable: after a successful call, the same
    call made again succeeds and stores a volume with the same shape and
    flags in a new array, whatever copies were requested; the method reads
    neither of the volumes stored earlier. *)
Theorem X4_classification_is_repeatable
        (np : reductions) (w : world) (arg : energy_refs_arg)
        (cutoff : float64) (mode : option string) (rc1 rc2 : bool)
        (ret1 : option loc) (w1 : world) :
  calculate_vacancy_from_energy np arg cutoff mode rc1 w = (inr ret1, w1) ->
  exists ret2 w2 v,
    calculate_vacancy_from_energy np arg cutoff mode rc2 w1 = (inr ret2, w2)
    /\ volume w1 _grid_vacancy = Some v
    /\ volume w2 _grid_vacancy = Some v
    /\ _grid_vacancy (self w2) <> _grid_vacancy (self w1).
Proof.
  intros Hcall. apply vacancy_call_inv in Hcall.
  destruct Hcall as [ev [Hmode [Hany [Hev [_ ->]]]]].
  eexists _, _, (less ev cutoff). split; [|split; [|split]].
  - rewrite vacancy_call, Hmode. cbn [negb].
    cbn [self with_grid_vacancy _type_energy_grids]. rewrite Hany.
    unfold energy_vals in *.
    cbn [self with_grid_vacancy _type_energy_grids _grid]. rewrite Hev.
    reflexivity.
  - unfold volume. cbn [self heap with_grid_vacancy _grid_vacancy].
    apply lookup_new.
  - unfold volume. cbn [self heap with_grid_vacancy _grid_vacancy].
    apply lookup_new.
  - cbn [self heap with_grid_vacancy _grid_vacancy].
    rewrite length_app. destruct rc1; simpl; intros E; injection E; lia.
Qed.

Lemma X4_witness :
  exists ret2 w2 v,
    Scenario.classify (Sequence ["A"; "e"]) (Scenario.f 2) (Some "sum") true
      Scenario.classified = (inr ret2, w2)
    /\ volume Scenario.classified _grid_vacancy = Some v
    /\ volume w2 _grid_vacancy = Some v
    /\ _grid_vacancy (self w2) <> _grid_vacancy (self Scenario.classified).
Proof.
  apply (X4_classification_is_repeatable reference Scenario.fresh
           (Sequence ["A"; "e"]) (Scenario.f 2) (Some "sum") false true None
           Scenario.classified).
  reflexivity.
Defined.

(** X5. The buriedness threshold is monotone: when the analysis succeeds
    with a required number of events, it succeeds with every smaller
    number, marks every point buried that was buried before, and so marks
    at least as many. This holds for any event counter. *)
Theorem X5_buried_points_grow_as_threshold_falls
        (count_events :
           ndarray bool -> float64 -> Z -> float64 -> exception + ndarray Z)
        (w : world) (num_directions : Z) (psp_len_max : float64)
        (m1 m2 : Z) (rc1 rc2 : bool)
        (ret2 : option loc) (w2 : world) (b2 : ndarray bool) :
  (m1 <= m2)%Z ->
  calculate_buriedness_from_psp_count count_events
    num_directions psp_len_max m2 rc2 w = (inr ret2, w2) ->
  volume w2 _grid_buriedness = Some b2 ->
  exists ret1 w1 b1,
    calculate_buriedness_from_psp_count count_events
      num_directions psp_len_max m1 rc1 w = (inr ret1, w1)
    /\ volume w1 _grid_buriedness = Some b1
    /\ shape b1 = shape b2
    /\ (forall p, nth_error (data b2) p = Some true ->
                  nth_error (data b1) p = Some true)
    /\ count_nonzero (data b2) <= count_nonzero (data b1).
Proof.
  intros Hle Hcall Hb2. apply buriedness_call_inv in Hcall.
  destruct Hcall as [v [gv [counts [Hv [Hgv [Hc [_ ->]]]]]]].
  unfold volume in Hb2.
  cbn [self heap with_grid_buriedness _grid_buriedness] in Hb2.
  rewrite lookup_new in Hb2. injection Hb2 as <-.
  assert (Hpt : forall x, Z.geb x m2 = true -> Z.geb x m1 = true).
  { intros x Hx. apply Z.geb_le in Hx. apply Z.geb_le. lia. }
  eexists _, _, (greater_equal counts m1).
  split; [rewrite buriedness_call, Hv, Hgv, Hc; reflexivity|].
  split; [|split; [reflexivity|split]].
  - unfold volume. cbn [self heap with_grid_buriedness _grid_buriedness].
    apply lookup_new.
  - intros p. unfold greater_equal. cbn [data]. rewrite !nth_error_map.
    destruct (nth_error (data counts) p) as [x|]; simpl; [|discriminate].
    intros E. injection E as E. now rewrite (Hpt x E).
  - unfold greater_equal. cbn [data]. now apply count_nonzero_monotone.
Qed.

Lemma X5_witness :
  exists ret1 w1 b1,
    Scenario.analyze 3 (Scenario.f 2) 0 false Scenario.classified
    = (inr ret1, w1)
    /\ volume w1 _grid_buriedness = Some b1
    /\ shape b1 = [1; 1; 2]
    /\ (forall p, nth_error [false; false] p = Some true ->
                  nth_error (data b1) p = Some true)
    /\ count_nonzero [false; false] <= count_nonzero (data b1).
Proof.
  apply (X5_buried_points_grow_as_threshold_falls
           BindingSite.count_psp_events_from_vacancy_tensor
           Scenario.classified 3 (Scenario.f 2) 0 1 false true (Some 2)
           (snd (Scenario.analyze 3 (Scenario.f 2) 1 true Scenario.classified))
           (NDArray [1; 1; 2] [false; false])).
  - lia.
  - reflexivity.
  - reflexivity.
Defined.

(** X6. A cutoff that is not a number leaves no point vacant: every flag
    the call stores is false. *)
Theorem X6_nan_cutoff_marks_nothing_vacant
        (np : reductions) (w : world) (arg : energy_refs_arg)
        (mode : option string) (return_copy : bool)
        (ret : option loc) (w' : world) (v : ndarray bool) :
  calculate_vacancy_from_energy np arg Float64.nan mode return_copy w
  = (inr ret, w') ->
  volume w' _grid_vacancy = Some v ->
  (forall p b, nth_error (data v) p = Some b -> b = false)
  /\ vacant_count v = 0.
Proof.
  intros Hcall Hv. apply vacancy_call_inv in Hcall.
  destruct Hcall as [ev [_ [_ [_ [_ ->]]]]].
  unfold volume in Hv. cbn [self heap with_grid_vacancy _grid_vacancy] in Hv.
  rewrite lookup_new in Hv. injection Hv as <-.
  unfold less, vacant_count, count_nonzero. cbn [data]. split.
  - intros p b. rewrite nth_error_map.
    destruct (nth_error (data ev) p) as [x|]; simpl; [|discriminate].
    intros E. injection E as <-. apply lt_nan.
  - induction (data ev) as [|x l IH]; simpl; [reflexivity|].
    now rewrite lt_nan.
Qed.

Lemma X6_witness :
  (forall p b, nth_error [false; false] p = Some b -> b = false)
  /\ vacant_count (NDArray [1; 1; 2] [false; false]) = 0.
Proof.
  apply (X6_nan_cutoff_marks_nothing_vacant reference Scenario.fresh
           (Sequence ["A"; "e"]) (Some "sum") false None
           (snd (Scenario.classify (Sequence ["A"; "e"]) Float64.nan
                   (Some "sum") false Scenario.fresh))
           (NDArray [1; 1; 2] [false; false])).
  - reflexivity.
  - reflexivity.
Defined.

(** X7. References that are not a [Sequence] (a numpy array of names)
    skip the check of [mode]: with one valid name a [mode] that is no key
    of [reducing_op] is ignored, the call doing what it does under "sum";
    with several valid names the lookup [reducing_op[mode]] raises
    [KeyError] and nothing is stored. *)
Theorem X7_array_references_skip_mode_check
        (np : reductions) (w : world) (nx ny nz : nat)
        (refs : list string) (cutoff : float64) (mode : option string)
        (return_copy : bool) :
  energy_grid w nx ny nz ->
  valid_refs w refs ->
  dict_contains (reducing_op np) mode = false ->
  (length refs = 1 ->
   calculate_vacancy_from_energy np (NotSequence refs) cutoff mode
     return_copy w
   = calculate_vacancy_from_energy np (NotSequence refs) cutoff (Some "sum")
       return_copy w
   /\ exists ret w',
        calculate_vacancy_from_energy np (NotSequence refs) cutoff mode
          return_copy w = (inr ret, w'))
  /\ (2 <= length refs ->
      calculate_vacancy_from_energy np (NotSequence refs) cutoff mode
        return_copy w = (inl (KeyError mode), w)).
Proof.
  intros Hgrid Hrefs Hmode.
  assert (Hany : any (isin refs (_type_energy_grids (self w)) true) = false).
  { destruct Hrefs as [_ [_ Hin]]. now apply none_missing. }
  split.
  - intros Hone. destruct refs as [|name [|y t]]; try discriminate.
    rewrite !vacancy_call. cbn [mode_checked names_of negb]. rewrite Hany.
    rewrite !(energy_vals_one np w nx ny nz Hgrid name _ Hrefs).
    split; [reflexivity|]. eexists _, _. reflexivity.
  - intros Hmany.
    rewrite vacancy_call. cbn [mode_checked names_of negb]. rewrite Hany.
    unfold energy_vals.
    rewrite (subgrid_ref_eq w nx ny nz Hgrid refs Hrefs).
    cbn [shape]. unfold last_dim. cbn [last].
    destruct (Nat.eqb_spec (length refs) 1) as [E|_]; [lia|].
    now rewrite (dict_contains_false _ _ Hmode).
Qed.

Lemma X7_witness :
  (length ["A"; "e"] = 1 ->
   Scenario.classify (NotSequence ["A"; "e"]) (Scenario.f 2) None false
     Scenario.fresh
   = Scenario.classify (NotSequence ["A"; "e"]) (Scenario.f 2) (Some "sum")
       false Scenario.fresh
   /\ exists ret w',
        Scenario.classify (NotSequence ["A"; "e"]) (Scenario.f 2) None false
          Scenario.fresh = (inr ret, w'))
  /\ (2 <= length ["A"; "e"] ->
      Scenario.classify (NotSequence ["A"; "e"]) (Scenario.f 2) None false
        Scenario.fresh = (inl (KeyError None), Scenario.fresh)).
Proof.
  apply (X7_array_references_skip_mode_check reference Scenario.fresh 1 1 2
           ["A"; "e"] (Scenario.f 2) None false).
  - exact scenario_grid.
  - exact scenario_refs_two.
  - reflexivity.
Defined.

(* ================================================================= *)
(** ** Properties of the construction *)

(** X8. When the input file exists and parses, and the output directory
    (if one is given) can be made, probe types that are not AutoDock atom
    types make [__init__] raise the [ValueError] whose message is the
    fixed prefix followed by numpy's rendering of the array of all of
    them, in the order given; AutoGrid4 has not been run by then, the only
    outside call made being the [mkdir] of a given output path. *)
Theorem X8_invalid_probe_types_are_all_reported
        (env : Construction.environment) (h : store)
        (a : Construction.arguments) :
  Construction.is_file env (Construction.filepath_target_structure a) = true ->
  Construction.parse_pdbqt env (Construction.filepath_target_structure a)
  = None ->
  (forall p, Construction.path_output a = Some p ->
             Construction.mkdir env p = None) ->
  (exists probe,
      In probe (Construction.type_probes a)
      /\ ~ In probe (Construction.autodock_atom_types env)) ->
  exists invalid,
    Construction.__init__ env h a
    = (inl (ValueError
              ("The following `type_probes` are not valid AutoDock atom types: "
                 ++ Construction.array_str env invalid)%string),
       match Construction.path_output a with
       | Some p => [Construction.Mkdir p]
       | None => []
       end)
    /\ invalid
       = filter (fun t =>
                   negb (existsb (String.eqb t)
                                 (Construction.autodock_atom_types env)))
                (Construction.type_probes a)
    /\ forall t,
         In t invalid
         <-> In t (Construction.type_probes a)
             /\ ~ In t (Construction.autodock_atom_types env).
Proof.
  intros Hfile Hparse Hmk [probe [Hin Hnot]].
  assert (Hany :
    any (isin (Construction.type_probes a)
              (Construction.autodock_atom_types env) true) = true).
  { destruct (any (isin (Construction.type_probes a)
                        (Construction.autodock_atom_types env) true)) eqn:E;
      [reflexivity|].
    exfalso. apply Hnot. exact (proj1 (any_false_iff _ _) E probe Hin). }
  eexists. split; [|split; [reflexivity|]].
  - unfold Construction.__init__. rewrite Hfile, Hparse. cbn [negb].
    destruct (Construction.path_output a) as [p|] eqn:Hp.
    + rewrite (Hmk p eq_refl), Hany. unfold isin.
      rewrite compress_map_filter. reflexivity.
    + rewrite Hany. unfold isin. rewrite compress_map_filter. reflexivity.
  - intros t. rewrite filter_In. split.
    + intros [Ht E]. split; [exact Ht|]. intros K.
      apply requested_In in K. rewrite K in E. discriminate.
    + intros [Ht K]. split; [exact Ht|].
      destruct (existsb (String.eqb t) (Construction.autodock_atom_types env))
        eqn:E; [|reflexivity].
      apply requested_In in E. contradiction.
Qed.

Lemma X8_witness :
  exists invalid,
    Construction.__init__ Construction.sample_environment []
      (Construction.sample_arguments ["A"; "Xx"; "OA"; "Q"] (Some "out"))
    = (inl (ValueError
              ("The following `type_probes` are not valid AutoDock atom types: "
                 ++ str_short invalid)%string),
       [Construction.Mkdir "out"])
    /\ invalid = ["Xx"; "Q"]
    /\ forall t,
         In t invalid
         <-> In t ["A"; "Xx"; "OA"; "Q"]
             /\ ~ In t ["A"; "C"; "HD"; "N"; "NA"; "OA"; "SA"; "Cl"].
Proof.
  apply (X8_invalid_probe_types_are_all_reported
           Construction.sample_environment []
           (Construction.sample_arguments ["A"; "Xx"; "OA"; "Q"] (Some "out"))).
  - reflexivity.
  - reflexivity.
  - intros p _. reflexivity.
  - exists "Xx". simpl. split; [tauto|]. intuition discriminate.
Defined.

(** X9. AutoGrid4 is run only once every check has passed, and exactly
    once: whenever [__init__] has run it, the input path is a file that
    parsed, every probe type is an AutoDock atom type, the run was given
    that file and those probe types, and the outside calls made are the
    [mkdir] of the output path, if one was given, followed by that single
    run. *)
Theorem X9_autogrid_runs_only_after_the_checks
        (env : Construction.environment) (h : store)
        (a : Construction.arguments)
        (receptor : string) (n : Z * Z * Z) (ligand_types : list string)
        (output : string) :
  In (Construction.RunAutogrid receptor n ligand_types output)
     (snd (Construction.__init__ env h a)) ->
  Construction.is_file env (Construction.filepath_target_structure a) = true
  /\ Construction.parse_pdbqt env (Construction.filepath_target_structure a)
     = None
  /\ (forall t, In t (Construction.type_probes a) ->
                In t (Construction.autodock_atom_types env))
  /\ receptor = Construction.filepath_target_structure a
  /\ ligand_types = Construction.type_probes a
  /\ snd (Construction.__init__ env h a)
     = match Construction.path_output a with
       | Some p => [Construction.Mkdir p]
       | None => []
       end
       ++ [Construction.RunAutogrid receptor n ligand_types output].
Proof.
  unfold Construction.__init__.
  destruct (Construction.is_file env (Construction.filepath_target_structure a));
    cbn [negb]; [|intros []].
  destruct (Construction.parse_pdbqt env
              (Construction.filepath_target_structure a)); [intros []|].
  assert (Hmk : forall p,
    In (Construction.RunAutogrid receptor n ligand_types output)
       [Construction.Mkdir p] -> False).
  { intros p [E|[]]. discriminate. }
  assert (Hrun : forall (calls : list Construction.call) run,
    (In (Construction.RunAutogrid receptor n ligand_types output) calls ->
     False) ->
    In (Construction.RunAutogrid receptor n ligand_types output)
       (calls ++ [run]) ->
    run = Construction.RunAutogrid receptor n ligand_types output).
  { intros calls run Hno Hin. apply in_app_or in Hin.
    destruct Hin as [Hin|[Hin|[]]]; [destruct (Hno Hin) | exact Hin]. }
  destruct (Construction.path_output a) as [p|].
  - destruct (Construction.mkdir env p);
      [intros Hin; destruct (Hmk p Hin)|].
    destruct (any (isin (Construction.type_probes a)
                        (Construction.autodock_atom_types env) true)) eqn:Hany;
      [intros Hin; destruct (Hmk p Hin)|].
    destruct (match Construction.npts a with
              | Some n0 => inr n0
              | None => Construction.calculate_npts env
                          (Construction.dims_grid a)
                          (Construction.spacing_grid_points a)
              end) as [e|n0];
      [intros Hin; destruct (Hmk p Hin)|].
    destruct (Construction.routine_run_autogrid env _ _ _ _ _ _);
      cbn [snd]; intros Hin;
      pose proof (Hrun _ _ (Hmk p) Hin) as E;
      injection E as <- <- <- <-;
      (repeat split; try reflexivity; now apply any_false_iff).
  - destruct (any (isin (Construction.type_probes a)
                        (Construction.autodock_atom_types env) true)) eqn:Hany;
      [intros []|].
    destruct (match Construction.npts a with
              | Some n0 => inr n0
              | None => Construction.calculate_npts env
                          (Construction.dims_grid a)
                          (Construction.spacing_grid_points a)
              end) as [e|n0];
      [intros []|].
    destruct (Construction.routine_run_autogrid env _ _ _ _ _ _);
      cbn [snd]; intros Hin;
      pose proof (Hrun [] _ (fun K => K) Hin) as E;
      injection E as <- <- <- <-;
      (repeat split; try reflexivity; now apply any_false_iff).
Qed.

Lemma X9_witness :
  Construction.is_file Construction.sample_environment "target.pdbqt" = true
  /\ Construction.parse_pdbqt Construction.sample_environment "target.pdbqt"
     = None
  /\ (forall t, In t ["A"] ->
                In t ["A"; "C"; "HD"; "N"; "NA"; "OA"; "SA"; "Cl"])
  /\ "target.pdbqt" = "target.pdbqt"
  /\ ["A"] = ["A"]
  /\ snd (Construction.__init__ Construction.sample_environment []
            (Construction.sample_arguments ["A"] (Some "out")))
     = [Construction.Mkdir "out"]
       ++ [Construction.RunAutogrid "target.pdbqt" (0, 0, 1)%Z ["A"]
             "out/target"].
Proof.
  apply (X9_autogrid_runs_only_after_the_checks
           Construction.sample_environment []
           (Construction.sample_arguments ["A"] (Some "out"))
           "target.pdbqt" (0, 0, 1)%Z ["A"] "out/target").
  simpl. tauto.
Defined.

(** X10. When [__init__] succeeds for at least one probe type, every
    probe type is an AutoDock atom type, the channel names of the instance are the probe types followed
    by "e" and "d", its grid is what the one run of AutoGrid4 returned, no
    array has been created and neither volume exists yet. *)
Theorem X10_constructed_instance
        (env : Construction.environment) (h : store)
        (a : Construction.arguments) (w : world)
        (calls : list Construction.call) :
  Construction.type_probes a <> [] ->
  Construction.__init__ env h a = (inr w, calls) ->
  heap w = h
  /\ _type_energy_grids (self w) = Construction.type_probes a ++ ["e"; "d"]
  /\ _spacing_grid_points (self w) = Construction.spacing_grid_points a
  /\ _grid_vacancy (self w) = None
  /\ _grid_buriedness (self w) = None
  /\ (forall t, In t (Construction.type_probes a) ->
                In t (Construction.autodock_atom_types env))
  /\ exists n output,
       Construction.routine_run_autogrid env
         (Construction.filepath_target_structure a)
         (Construction.coords_grid_center a) n
         (Construction.spacing_grid_points a)
         (Construction.type_probes a) output = inr (_grid (self w))
       /\ calls
          = match Construction.path_output a with
            | Some p => [Construction.Mkdir p]
            | None => []
            end
            ++ [Construction.RunAutogrid
                  (Construction.filepath_target_structure a) n
                  (Construction.type_probes a) output].
Proof.
  intros _. unfold Construction.__init__.
  destruct (Construction.is_file env (Construction.filepath_target_structure a));
    cbn [negb]; [|discriminate].
  destruct (Construction.parse_pdbqt env
              (Construction.filepath_target_structure a)); [discriminate|].
  destruct (Construction.path_output a) as [p|].
  - destruct (Construction.mkdir env p); [discriminate|].
    destruct (any (isin (Construction.type_probes a)
                        (Construction.autodock_atom_types env) true)) eqn:Hany;
      [discriminate|].
    destruct (match Construction.npts a with
              | Some n0 => inr n0
              | None => Construction.calculate_npts env
                          (Construction.dims_grid a)
                          (Construction.spacing_grid_points a)
              end) as [e|n0]; [discriminate|].
    destruct (Construction.routine_run_autogrid env _ _ _ _ _ _)
      as [e|grid] eqn:Hrun; [discriminate|].
    intros H. injection H as <- <-. cbn.
    repeat (split; [reflexivity|]).
    split; [now apply any_false_iff|].
    eexists _, _. split; [exact Hrun | reflexivity].
  - destruct (any (isin (Construction.type_probes a)
                        (Construction.autodock_atom_types env) true)) eqn:Hany;
      [discriminate|].
    destruct (match Construction.npts a with
              | Some n0 => inr n0
              | None => Construction.calculate_npts env
                          (Construction.dims_grid a)
                          (Construction.spacing_grid_points a)
              end) as [e|n0]; [discriminate|].
    destruct (Construction.routine_run_autogrid env _ _ _ _ _ _)
      as [e|grid] eqn:Hrun; [discriminate|].
    intros H. injection H as <- <-. cbn.
    repeat (split; [reflexivity|]).
    split; [now apply any_false_iff|].
    eexists _, _. split; [exact Hrun | reflexivity].
Qed.

Lemma X10_witness :
  heap Scenario.fresh = []
  /\ _type_energy_grids (self Scenario.fresh) = ["A"] ++ ["e"; "d"]
  /\ _spacing_grid_points (self Scenario.fresh) = Float64.one
  /\ _grid_vacancy (self Scenario.fresh) = None
  /\ _grid_buriedness (self Scenario.fresh) = None
  /\ (forall t, In t ["A"] ->
                In t ["A"; "C"; "HD"; "N"; "NA"; "OA"; "SA"; "Cl"])
  /\ exists n output,
       Construction.routine_run_autogrid Construction.sample_environment
         "target.pdbqt" None n Float64.one ["A"] output
       = inr (_grid (self Scenario.fresh))
       /\ [Construction.RunAutogrid "target.pdbqt" (0, 0, 1)%Z ["A"]
             "./target/target"]
          = [] ++ [Construction.RunAutogrid "target.pdbqt" n ["A"] output].
Proof.
  apply (X10_constructed_instance Construction.sample_environment []
           (Construction.sample_arguments ["A"] None) Scenario.fresh
           [Construction.RunAutogrid "target.pdbqt" (0, 0, 1)%Z ["A"]
              "./target/target"]).
  - discriminate.
  - reflexivity.
Defined.

Lemma constructed_names (env : Construction.environment) (h : store)
      (a : Construction.arguments) (w : world)
      (calls : list Construction.call) :
  Construction.__init__ env h a = (inr w, calls) ->
  _type_energy_grids (self w) = Construction.type_probes a ++ ["e"; "d"].
Proof.
  unfold Construction.__init__.
  destruct (Construction.is_file env (Construction.filepath_target_structure a));
    cbn [negb]; [|discriminate].
  destruct (Construction.parse_pdbqt env
              (Construction.filepath_target_structure a)); [discriminate|].
  destruct (Construction.path_output a) as [p|];
    [destruct (Construction.mkdir env p); [discriminate|]|];
    (destruct (any (isin (Construction.type_probes a)
                         (Construction.autodock_atom_types env) true));
       [discriminate|]);
    (destruct (match Construction.npts a with
               | Some n0 => inr n0
               | None => Construction.calculate_npts env
                           (Construction.dims_grid a)
                           (Construction.spacing_grid_points a)
               end) as [e|n0]; [discriminate|]);
    (destruct (Construction.routine_run_autogrid env _ _ _ _ _ _)
       as [e|grid]; [discriminate|]);
    intros H; injection H as <- <-; reflexivity.
Qed.

(** X11. Construction and classification compose: on an instance that
    [__init__] returned for one or more distinct probe types, none of
    them called "e" or "d", whose grid has one channel per probe type plus two, every
    non-empty list of distinct references taken from the probe types, "e"
    and "d" is accepted under each mode of [reducing_op]: the call
    succeeds and stores a volume with one flag per lattice point. *)
Theorem X11_classification_after_construction
        (np : reductions) (env : Construction.environment) (h : store)
        (a : Construction.arguments) (w : world)
        (calls : list Construction.call) (nx ny nz : nat)
        (refs : list string) (cutoff : float64) (r : reduction)
        (return_copy : bool) :
  Construction.__init__ env h a = (inr w, calls) ->
  Construction.type_probes a <> [] ->
  NoDup (Construction.type_probes a) ->
  ~ In "e" (Construction.type_probes a) ->
  ~ In "d" (Construction.type_probes a) ->
  shape (_grid (self w))
  = [nx; ny; nz; length (Construction.type_probes a) + 2] ->
  well_shaped (_grid (self w)) ->
  refs <> [] ->
  NoDup refs ->
  (forall n, In n refs ->
             In n (Construction.type_probes a) \/ n = "e" \/ n = "d") ->
  exists ret w' vacancy,
    calculate_vacancy_from_energy np (Sequence refs) cutoff
      (Some (mode_of r)) return_copy w = (inr ret, w')
    /\ volume w' _grid_vacancy = Some vacancy
    /\ forall i j k, i < nx -> j < ny -> k < nz ->
         exists flag, at_point vacancy ny nz i j k = Some flag.
Proof.
  intros Hinit _ Hnd He Hd Hshape Hws Hne Hndr Hin.
  pose proof (constructed_names env h a w calls Hinit) as Hnames.
  assert (Hgrid : energy_grid w nx ny nz).
  { split; [|split; [exact Hws|]].
    - rewrite Hshape, Hnames, length_app. reflexivity.
    - rewrite Hnames. apply NoDup_app; [exact Hnd | | ].
      + repeat constructor; simpl; intuition discriminate.
      + intros x Hx [<-|[<-|[]]]; contradiction. }
  assert (Hrefs : valid_refs w refs).
  { split; [exact Hne|]. split; [exact Hndr|].
    intros n Hn. rewrite Hnames. apply in_or_app.
    destruct (Hin n Hn) as [K | [ -> | -> ]]; [now left| |]; right; simpl; tauto. }
  destruct (energy_vals_valid np w nx ny nz refs r Hgrid Hrefs)
    as [ev [Hev [_ Hat]]].
  destruct (vacancy_call_valid np w nx ny nz (Sequence refs) cutoff r
              return_copy Hgrid Hrefs) as [ev' [Hev' Hcall]].
  cbn [names_of] in Hev'. rewrite Hev in Hev'. injection Hev' as <-.
  eexists _, _, (less ev cutoff). split; [exact Hcall|]. split.
  - unfold volume. cbn [self heap with_grid_vacancy _grid_vacancy].
    apply lookup_new.
  - intros i j k Hi Hj Hk. destruct (Hat i j k Hi Hj Hk) as [s [_ Hs]].
    exists (Float64.lt s cutoff). unfold at_point, less. cbn [data].
    now rewrite nth_error_map, Hs.
Qed.

Lemma X11_witness :
  exists ret w' vacancy,
    Scenario.classify (Sequence ["d"; "A"]) (Scenario.f 2) (Some "max") false
      Scenario.fresh = (inr ret, w')
    /\ volume w' _grid_vacancy = Some vacancy
    /\ forall i j k, i < 1 -> j < 1 -> k < 2 ->
         exists flag, at_point vacancy 1 2 i j k = Some flag.
Proof.
  apply (X11_classification_after_construction reference
           Construction.sample_environment []
           (Construction.sample_arguments ["A"] None) Scenario.fresh
           [Construction.RunAutogrid "target.pdbqt" (0, 0, 1)%Z ["A"]
              "./target/target"]
           1 1 2 ["d"; "A"] (Scenario.f 2) Max false).
  - reflexivity.
  - discriminate.
  - repeat constructor. simpl. tauto.
  - simpl. intuition discriminate.
  - simpl. intuition discriminate.
  - reflexivity.
  - reflexivity.
  - discriminate.
  - repeat constructor; simpl; intuition discriminate.
  - simpl. intros n [<-|[<-|[]]]; tauto.
Defined.

(** X12. The vacant sets are nested in the cutoff: with the same
    references and mode and cutoffs c1 <= c2, when the classification with
    c1 succeeds so does the one with c2, both volumes have the same shape,
    and every point vacant under c1 is vacant under c2. *)
Theorem X12_vacant_points_nested_in_cutoff
        (np : reductions) (w : world) (arg : energy_refs_arg)
        (mode : option string) (c1 c2 : float64) (rc1 rc2 : bool)
        (ret1 : option loc) (w1 : world) (v1 : ndarray bool) :
  Float64.le c1 c2 = true ->
  calculate_vacancy_from_energy np arg c1 mode rc1 w = (inr ret1, w1) ->
  volume w1 _grid_vacancy = Some v1 ->
  exists ret2 w2 v2,
    calculate_vacancy_from_energy np arg c2 mode rc2 w = (inr ret2, w2)
    /\ volume w2 _grid_vacancy = Some v2
    /\ shape v2 = shape v1
    /\ forall p, nth_error (data v1) p = Some true ->
                 nth_error (data v2) p = Some true.
Proof.
  intros Hle Hcall Hv1.
  apply vacancy_call_inv in Hcall.
  destruct Hcall as [ev [Hmode [Hany [Hev [_ ->]]]]].
  unfold volume in Hv1. cbn [self heap with_grid_vacancy _grid_vacancy] in Hv1.
  rewrite lookup_new in Hv1. injection Hv1 as <-.
  eexists _, _, (less ev c2). split; [|split; [|split]].
  - rewrite vacancy_call, Hmode, Hany, Hev. reflexivity.
  - unfold volume. cbn [self heap with_grid_vacancy _grid_vacancy].
    apply lookup_new.
  - reflexivity.
  - intros p. unfold less. cbn [data]. rewrite !nth_error_map.
    destruct (nth_error (data ev) p) as [x|]; simpl; [|discriminate].
    intros E. injection E as E. now rewrite (lt_le_trans x c1 c2 E Hle).
Qed.

Lemma X12_witness :
  exists ret2 w2 v2,
    Scenario.classify (Sequence ["A"; "e"]) (Scenario.f 6) (Some "sum") false
      Scenario.fresh = (inr ret2, w2)
    /\ volume w2 _grid_vacancy = Some v2
    /\ shape v2 = [1; 1; 2]
    /\ forall p, nth_error [false; true] p = Some true ->
                 nth_error (data v2) p = Some true.
Proof.
  apply (X12_vacant_points_nested_in_cutoff reference Scenario.fresh
           (Sequence ["A"; "e"]) (Some "sum") (Scenario.f 2) (Scenario.f 6)
           false false None Scenario.classified
           (NDArray [1; 1; 2] [false; true])).
  - reflexivity.
  - reflexivity.
  - reflexivity.
Defined.
